(** * The in-memory product store of the storefront's API routes

    A shallow embedding of the two route modules

    - [src/app/api/Product/route.ts]      ([GET], [POST]; the listing kept
      under [src/unnamed/part_000]) and
    - [src/app/api/Product/[id]/route.ts] ([PUT], [DELETE]),

    which share one array ([global.globalProducts]) and one identifier
    counter ([global.nextProductId], cached in the module variable
    [nextId]).

    Conventions of the embedding.

    - A JavaScript number is a binary64 float ([float]); the handlers only
      test and compare request numbers, so no rounding lemma is needed.
      Product identifiers, the counter and the result of [parseInt] are
      integers and are kept as [Z]: they are exact as long as fewer than
      2^53 products are ever created.
    - A JavaScript string is its sequence of UTF-16 code units, so that
      [.length] is [length].
    - [new Date().toISOString()] renders the clock reading taken at that
      moment; the embedding keeps the reading itself (milliseconds, [Z]),
      and every reading is an explicit argument of the operation that takes
      it.
    - The request body is whatever [request.json()] yields: any JSON value
      ([None] when the promise rejects).
    - Where the language converts a string to a number ([StringToNumber]:
      the grammar of numeric literals and the rounding to binary64) the
      conversion is a parameter of the embedding, [ToNumberOfText]; the
      theorems hold whatever it answers. *)

From Stdlib Require Import ZArith List String Ascii Floats Uint63 Bool Lia.
From Stdlib Require Import Sorting.Sorted Sorting.Permutation.
From Stdlib Require Import DecimalPos DecimalFacts.
From stdpp Require Import list.

Local Open Scope Z_scope.
#[local] Set Warnings "-register-all".

(** ** JavaScript values *)

Definition js_string := list N.

(** The code units of an ASCII literal of the source. *)
Definition lit (s : string) : js_string :=
  map N_of_ascii (list_ascii_of_string s).

Fixpoint js_string_eqb (a b : js_string) : bool :=
  match a, b with
  | [], [] => true
  | x :: a', y :: b' => N.eqb x y && js_string_eqb a' b'
  | _, _ => false
  end.

Inductive JsValue :=
| JUndefined
| JNull
| JBool (b : bool)
| JNumber (x : float)
| JString (s : js_string)
| JArray (elements : list JsValue)
| JObject (members : list (js_string * JsValue)).

(** The outcome of evaluating an expression: a value or a thrown
    [TypeError]. *)
Inductive Completion (A : Type) :=
| Normal (a : A)
| Throw.
Arguments Normal {A} a.
Arguments Throw {A}.

Definition bind {A B} (c : Completion A) (k : A -> Completion B) : Completion B :=
  match c with
  | Normal a => k a
  | Throw => Throw
  end.

Notation "x <- c ;; k" := (bind c (fun x => k))
  (at level 100, c at next level, right associativity).

(** [ToBoolean]: what [!v] and [v || w] test. *)
Definition ToBoolean (v : JsValue) : bool :=
  match v with
  | JUndefined | JNull => false
  | JBool b => b
  | JNumber x => negb (PrimFloat.is_zero x || PrimFloat.is_nan x)
  | JString s => negb (Nat.eqb (length s) 0)
  | JArray _ | JObject _ => true
  end.

(** [typeof v === 'number'] *)
Definition is_number (v : JsValue) : bool :=
  match v with JNumber _ => true | _ => false end.

(** Own property [k] of an object built by [JSON.parse]: of members with
    the same key the last one is kept. *)
Fixpoint own_property (k : js_string) (members : list (js_string * JsValue))
  : option JsValue :=
  match members with
  | [] => None
  | (k', v) :: rest =>
      match own_property k rest with
      | Some w => Some w
      | None => if js_string_eqb k k' then Some v else None
      end
  end.

(** [v.k] for the property names the handlers destructure ([name],
    [description], [price], [image]): none of them is on a built-in
    prototype, so a value that is not an object with that member yields
    [undefined]; reading a property of [null] or [undefined] throws. *)
Definition Get (v : JsValue) (k : js_string) : Completion JsValue :=
  match v with
  | JUndefined | JNull => Throw
  | JObject members =>
      Normal (match own_property k members with Some w => w | None => JUndefined end)
  | _ => Normal JUndefined
  end.

(** A length as a number; exact for every length a string or an array can
    have (below 2^53). *)
Definition number_of_nat (n : nat) : float :=
  PrimFloat.of_uint63 (Uint63.of_Z (Z.of_nat n)).

(** [v.length]: the number of code units of a string, the number of
    elements of an array, the member called [length] of an object, and
    [undefined] on a number or a boolean. *)
Definition GetLength (v : JsValue) : Completion JsValue :=
  match v with
  | JUndefined | JNull => Throw
  | JString s => Normal (JNumber (number_of_nat (length s)))
  | JArray elements => Normal (JNumber (number_of_nat (length elements)))
  | JObject members =>
      Normal (match own_property (lit "length") members with
              | Some w => w
              | None => JUndefined
              end)
  | JBool _ | JNumber _ => Normal JUndefined
  end.

(** [x <= 0] on numbers. *)
Definition LessEqualZero (v : JsValue) : bool :=
  match v with
  | JNumber x => PrimFloat.leb x 0%float
  | _ => false
  end.

(** ** [parseInt] *)

(** [WhiteSpace] and [LineTerminator] code units. *)
Definition is_white_space (c : N) : bool :=
  let c := Z.of_N c in
  (9 <=? c) && (c <=? 13) || (c =? 32) || (c =? 160) || (c =? 5760)
  || (8192 <=? c) && (c <=? 8202) || (c =? 8232) || (c =? 8233)
  || (c =? 8239) || (c =? 8287) || (c =? 12288) || (c =? 65279).

Fixpoint skip_white_space (s : js_string) : js_string :=
  match s with
  | c :: rest => if is_white_space c then skip_white_space rest else s
  | [] => []
  end.

(** The value of a code unit as a digit of the radix, if it is one. *)
Definition digit_value (radix : Z) (c : N) : option Z :=
  let c := Z.of_N c in
  let d := if (48 <=? c) && (c <=? 57) then c - 48
           else if (97 <=? c) && (c <=? 122) then c - 97 + 10
           else if (65 <=? c) && (c <=? 90) then c - 65 + 10
           else radix in
  if d <? radix then Some d else None.

(** The integer written by the longest prefix of digits; [acc] is [None]
    until a digit has been read. *)
Fixpoint parse_digits (radix : Z) (acc : option Z) (s : js_string) : option Z :=
  match s with
  | [] => acc
  | c :: rest =>
      match digit_value radix c with
      | Some d =>
          parse_digits radix
            (Some (match acc with Some a => a * radix + d | None => d end)) rest
      | None => acc
      end
  end.

(** [parseInt(s)] with no radix argument; [None] is [NaN]. The integer is
    the one the digits write; the language then rounds it to a number,
    which leaves it as it is up to 2^53 in absolute value. *)
Definition parseInt (s : js_string) : option Z :=
  let s := skip_white_space s in
  let '(sign, s) :=
    match s with
    | c :: rest =>
        if N.eqb c 45 then (-1, rest)
        else if N.eqb c 43 then (1, rest)
        else (1, s)
    | [] => (1, s)
    end in
  let '(radix, s) :=
    match s with
    | c0 :: cx :: rest =>
        if N.eqb c0 48 && (N.eqb cx 120 || N.eqb cx 88) then (16, rest) else (10, s)
    | _ => (10, s)
    end in
  match parse_digits radix None s with
  | Some n => Some (sign * n)
  | None => None
  end.

(** ** Products and the shared store *)

Module Product.
Record t := mk {
  id : Z;
  name : JsValue;
  description : JsValue;
  price : JsValue;
  image : JsValue;        (* [JUndefined] when unset *)
  createdAt : Z;
  updatedAt : Z
}.
End Product.

(** [globalProducts] is the one array both modules alias as [products] and
    update in place; [nextProductId] is the global counter and [nextId] the
    copy of it that [POST] increments. *)
Record Store := mkStore {
  globalProducts : list Product.t;
  nextProductId : Z;
  nextId : Z
}.

(** Module initialisation in a fresh process: the two seed products, each
    timestamp a clock reading of its own, and the counter at 3. *)
Definition initial_store (c1 c2 c3 c4 : Z) : Store :=
  {| globalProducts :=
       [ Product.mk 1 (JString (lit "Classic Cotton T-Shirt"))
           (JString (lit "A comfortable, breathable cotton t-shirt perfect for everyday wear."))
           (JNumber 0x1.dfd70a3d70a3dp+4%float)       (* 29.99 *)
           (JString (lit "https://via.placeholder.com/300x300?text=T-Shirt"))
           c1 c2;
         Product.mk 2 (JString (lit "Denim Jeans"))
           (JString (lit "Premium quality denim jeans with a modern fit."))
           (JNumber 0x1.3ff5c28f5c28fp+6%float)       (* 79.99 *)
           (JString (lit "https://via.placeholder.com/300x300?text=Jeans"))
           c3 c4 ];
     nextProductId := 3;
     nextId := 3 |}.

Definition ids (s : Store) : list Z := map Product.id (globalProducts s).

(** ** Responses *)

Inductive ResponseBody :=
| JsonProducts (products : list Product.t)
| JsonProduct (product : Product.t)
| JsonError (error : string)
| JsonDeleted (message : string) (product : Product.t).

Record Response := mkResponse { status : Z; body : ResponseBody }.

Definition error_response (code : Z) (msg : string) : Response :=
  {| status := code; body := JsonError msg |}.

Definition invalid_id : Response := error_response 400 "Invalid product ID".
Definition not_found : Response := error_response 404 "Product not found".

(** [image || undefined] *)
Definition image_or_undefined (image : JsValue) : JsValue :=
  if ToBoolean image then image else JUndefined.

(** ** The handlers that read no body

    A handler takes the store and returns the store it leaves and its
    response. *)

(** [products.findIndex(f)], together with the element at that index, which
    the handlers read next ([products[productIndex]],
    [products.splice(productIndex, 1)[0]]); [None] is [-1]. *)
Fixpoint findIndex {A} (f : A -> bool) (l : list A) : option (nat * A) :=
  match l with
  | [] => None
  | x :: rest =>
      if f x then Some (0%nat, x)
      else match findIndex f rest with
           | Some (i, y) => Some (S i, y)
           | None => None
           end
  end.

(** [GET /api/Product] *)
Definition GET (s : Store) : Store * Response :=
  (s, {| status := 200; body := JsonProducts (globalProducts s) |}).

(** [DELETE] from the point where [id] has been parsed. *)
Definition DELETE_with_id (s : Store) (id : Z) : Store * Response :=
  match findIndex (fun p => Product.id p =? id) (globalProducts s) with
  | None => (s, not_found)
  | Some (productIndex, deletedProduct) =>                 (* splice(productIndex, 1)[0] *)
      ({| globalProducts := delete productIndex (globalProducts s);
          nextProductId := nextProductId s;
          nextId := nextId s |},
       {| status := 200;
          body := JsonDeleted "Product deleted successfully" deletedProduct |})
  end.

(** [DELETE /api/Product/[id]] *)
Definition DELETE (s : Store) (idParam : js_string) : Store * Response :=
  match parseInt idParam with
  | None => (s, invalid_id)                                  (* isNaN(id) *)
  | Some id => DELETE_with_id s id
  end.

(** ** Requests and tasks *)

Inductive Request :=
| ReqGET
| ReqPOST (now1 now2 : Z) (body : option JsValue)
| ReqPUT (now : Z) (idParam : js_string) (body : option JsValue)
| ReqDELETE (idParam : js_string).

(** The ids that [POST] handed out, read off the responses. *)
Definition created_id (r : Response) : list Z :=
  match r with
  | {| status := 201; body := JsonProduct p |} => [Product.id p]
  | _ => []
  end.

Definition created_ids (resps : list Response) : list Z :=
  concat (map created_id resps).

(** The handlers are [async] functions on the one thread of the process:
    code runs without interruption from one [await] to the next, and two
    requests interleave only at their [await]s. A task is a handler
    suspended at an [await]; resuming it runs the code up to the next
    [await] or to the [return], on the store as it is at that moment. The
    clock readings a request carries are the ones its last stretch takes. *)
Inductive Task :=
| Done (r : Response)
| Suspended (resume : Store -> Store * Task).

Definition finish (o : Store * Response) : Store * Task :=
  (fst o, Done (snd o)).

(** The event loop resumes task [i] of the pool; [None] when there is no
    such task or it has returned. *)
Definition resume_task (i : nat) (w : Store * list Task) : option (Store * list Task) :=
  match snd w !! i with
  | Some (Suspended resume) =>
      let '(s', t') := resume (fst w) in Some (s', <[i := t']> (snd w))
  | _ => None
  end.

(** A schedule names the task resumed at each turn of the loop. *)
Fixpoint run_schedule (schedule : list nat) (w : Store * list Task)
  : option (Store * list Task) :=
  match schedule with
  | [] => Some w
  | i :: rest =>
      match resume_task i w with
      | Some w' => run_schedule rest w'
      | None => None
      end
  end.

Definition returned (t : Task) : Prop := exists r, t = Done r.

(** The requests of [rs] taken in the order of the indices. *)
Definition in_order (order : list nat) (rs : list Request) : list Request :=
  flat_map (fun i => match rs !! i with Some r => [r] | None => [] end) order.

(** ** Properties used by the claims *)

(** The store holds distinct ids, all below the counter, and the global
    counter agrees with the module's copy. *)
Definition store_inv (s : Store) : Prop :=
  List.NoDup (ids s) /\ (forall i, In i (ids s) -> i < nextId s) /\ nextProductId s = nextId s.

(** [price] is a number and positive: what the two price tests let through. *)
Definition valid_price (price : JsValue) : bool :=
  ToBoolean price && is_number price && negb (LessEqualZero price).



(** ** Sample requests *)

(** A JSON object with the four fields, as a client would send it. *)
Definition product_body (name description price image : JsValue) : JsValue :=
  JObject [ (lit "name", name); (lit "description", description);
            (lit "price", price); (lit "image", image) ].

(** [{name: "A", description: "B", price: 10}], the image left out. *)
Definition body_A_B_10 : JsValue :=
  JObject [ (lit "name", JString (lit "A")); (lit "description", JString (lit "B"));
            (lit "price", JNumber 10%float) ].

(** Create, delete what was created, create again, list. *)
Definition sample_run : list Request :=
  [ ReqPOST 10 10 (Some body_A_B_10); ReqDELETE (lit "3");
    ReqPOST 20 21 (Some body_A_B_10); ReqGET ].

(** What the validation block makes of a body. *)
Inductive Checked :=
| Accepted (name description price image : JsValue)
| Rejected (r : Response).

(** * The handlers that validate a body *)

Section Handlers.

(** [ToNumber] of a string, and of an array, which [ToPrimitive] first joins
    into a string: the language's [StringToNumber], after
    [Array.prototype.join], which throws when an element is an object with
    a member named [toString]. The handlers reach it only for a [name] or
    [description] that is an object whose [length] member is a string or an
    array. *)
Variable ToNumberOfText : JsValue -> Completion float.

(** [v > limit] against a number: [v] is converted with [ToNumber]
    ([undefined] to [NaN], [null] to 0, booleans to 0 and 1). An object goes
    through [ToPrimitive]: a parsed object inherits [valueOf], which returns
    the object itself, so the conversion ends in [toString], giving
    ["[object Object]"] and then [NaN]; when the object has a member named
    [toString] that member is not callable and the conversion throws. *)
Definition GreaterThan (v : JsValue) (limit : float) : Completion bool :=
  match v with
  | JUndefined => Normal false
  | JNull => Normal (PrimFloat.ltb limit 0%float)
  | JBool b => Normal (PrimFloat.ltb limit (if b then 1%float else 0%float))
  | JNumber x => Normal (PrimFloat.ltb limit x)
  | JString _ | JArray _ => x <- ToNumberOfText v ;; Normal (PrimFloat.ltb limit x)
  | JObject members =>
      match own_property (lit "toString") members with
      | Some _ => Throw
      | None => Normal false
      end
  end.

(** The validation block. Lines 64-94 of [route.ts] and lines 71-101 of
    [[id]/route.ts] are the same text: read the body, destructure it, and
    test the fields in this order. *)
Definition validate (request : option JsValue) : Completion Checked :=
  match request with
  | None => Throw                                   (* [request.json()] rejects *)
  | Some body =>
      name <- Get body (lit "name") ;;
      description <- Get body (lit "description") ;;
      price <- Get body (lit "price") ;;
      image <- Get body (lit "image") ;;
      if negb (ToBoolean name) || negb (ToBoolean description) || negb (ToBoolean price)
      then Normal (Rejected (error_response 400 "Name, description, and price are required"))
      else if negb (is_number price) || LessEqualZero price
      then Normal (Rejected (error_response 400 "Price must be a positive number"))
      else
        name_length <- GetLength name ;;
        name_too_long <- GreaterThan name_length 100%float ;;
        if (name_too_long : bool)
        then Normal (Rejected (error_response 400 "Name must be 100 characters or less"))
        else
          description_length <- GetLength description ;;
          description_too_long <- GreaterThan description_length 500%float ;;
          if (description_too_long : bool)
          then Normal (Rejected (error_response 400 "Description must be 500 characters or less"))
          else Normal (Accepted name description price image)
  end.

(** [POST /api/Product]; [now1] and [now2] are the two clock readings, for
    [createdAt] and [updatedAt]. Every [throw] happens before the first
    write, so the [catch] clause answers 500 on the store as it was. *)
Definition POST (s : Store) (now1 now2 : Z) (request : option JsValue)
  : Store * Response :=
  match validate request with
  | Normal (Rejected r) => (s, r)
  | Normal (Accepted name description price image) =>
      let newProduct :=
        {| Product.id := nextId s;                          (* nextId++ *)
           Product.name := name;
           Product.description := description;
           Product.price := price;
           Product.image := image_or_undefined image;
           Product.createdAt := now1;
           Product.updatedAt := now2 |} in
      ({| globalProducts := globalProducts s ++ [newProduct];  (* push *)
          nextProductId := nextId s + 1;
          nextId := nextId s + 1 |},
       {| status := 201; body := JsonProduct newProduct |})
  | Throw => (s, error_response 500 "Failed to create product")
  end.

(** [PUT] from the point where [id] has been parsed: the part that runs
    after [await request.json()]. *)
Definition PUT_with_id (s : Store) (now : Z) (id : Z) (request : option JsValue)
  : Store * Response :=
  match validate request with
  | Normal (Rejected r) => (s, r)
  | Normal (Accepted name description price image) =>
      match findIndex (fun p => Product.id p =? id) (globalProducts s) with
      | None => (s, not_found)
      | Some (productIndex, old) =>
          let updatedProduct :=
            {| Product.id := Product.id old;                (* ...products[productIndex] *)
               Product.name := name;
               Product.description := description;
               Product.price := price;
               Product.image := image_or_undefined image;
               Product.createdAt := Product.createdAt old;
               Product.updatedAt := now |} in
          ({| globalProducts := <[productIndex := updatedProduct]> (globalProducts s);
              nextProductId := nextProductId s;
              nextId := nextId s |},
           {| status := 200; body := JsonProduct updatedProduct |})
      end
  | Throw => (s, error_response 500 "Failed to update product")
  end.

(** [PUT /api/Product/[id]] *)
Definition PUT (s : Store) (now : Z) (idParam : js_string) (request : option JsValue)
  : Store * Response :=
  match parseInt idParam with
  | None => (s, invalid_id)                                  (* isNaN(id) *)
  | Some id => PUT_with_id s now id request
  end.

(** ** Serving requests one after the other *)

Definition handle (s : Store) (r : Request) : Store * Response :=
  match r with
  | ReqGET => GET s
  | ReqPOST now1 now2 body => POST s now1 now2 body
  | ReqPUT now idParam body => PUT s now idParam body
  | ReqDELETE idParam => DELETE s idParam
  end.

(** The store after the requests and the responses in order. *)
Fixpoint serve (s : Store) (rs : list Request) : Store * list Response :=
  match rs with
  | [] => (s, [])
  | r :: rest =>
      let '(s1, resp) := handle s r in
      let '(s2, resps) := serve s1 rest in
      (s2, resp :: resps)
  end.

(** ** Requests in flight *)

(** [GET] has no [await]: its body is one step. *)
Definition GET_task : Task :=
  Suspended (fun s => finish (GET s)).

(** [POST] is suspended once, at [await request.json()]. *)
Definition POST_task (now1 now2 : Z) (body : option JsValue) : Task :=
  Suspended (fun s => finish (POST s now1 now2 body)).

(** [PUT] is suspended at [await params], parses the id, and is suspended
    again at [await request.json()]. *)
Definition PUT_awaiting_body (now : Z) (id : Z) (body : option JsValue) : Task :=
  Suspended (fun s => finish (PUT_with_id s now id body)).

Definition PUT_task (now : Z) (idParam : js_string) (body : option JsValue) : Task :=
  Suspended (fun s =>
    match parseInt idParam with
    | None => (s, Done invalid_id)
    | Some id => (s, PUT_awaiting_body now id body)
    end).

(** [DELETE] is suspended once, at [await params]. *)
Definition DELETE_task (idParam : js_string) : Task :=
  Suspended (fun s => finish (DELETE s idParam)).

Definition task_of (r : Request) : Task :=
  match r with
  | ReqGET => GET_task
  | ReqPOST now1 now2 body => POST_task now1 now2 body
  | ReqPUT now idParam body => PUT_task now idParam body
  | ReqDELETE idParam => DELETE_task idParam
  end.

(** A task of request [r] that has not returned: not yet resumed, or, for
    a [PUT] whose id parsed, waiting for the body. *)
Definition pending (r : Request) (t : Task) : Prop :=
  t = task_of r
  \/ exists now idParam body id,
       r = ReqPUT now idParam body /\ parseInt idParam = Some id
       /\ t = PUT_awaiting_body now id body.

(** The loop's state [w] seen as a serial run: the requests of [order] have
    returned, with the responses and the store that serving them one after
    the other in that order gives; the others are pending. *)
Definition serial_view (s0 : Store) (reqs : list Request) (order : list nat)
  (w : Store * list Task) : Prop :=
  length (snd w) = length reqs
  /\ List.NoDup order
  /\ (exists resps,
        serve s0 (in_order order reqs) = (fst w, resps)
        /\ Forall2 (fun i r => snd w !! i = Some (Done r)) order resps)
  /\ (forall i req, reqs !! i = Some req -> ~ In i order ->
        exists t, snd w !! i = Some t /\ pending req t).

(** ** More properties used by the claims *)

(** The body passes the validation block. *)
Definition valid_body (request : option JsValue) : Prop :=
  exists name description price image,
    validate request = Normal (Accepted name description price image).

(** [v.length > limit] is evaluated and false. *)
Definition length_within (v : JsValue) (limit : float) : Prop :=
  exists len, GetLength v = Normal len /\ GreaterThan len limit = Normal false.

(** ** More about the store *)

(** A record as the validation block lets it in: name and description
    truthy and within their limits, the price a positive number, the image
    unset or truthy. *)
Definition passes_validation (p : Product.t) : Prop :=
  ToBoolean (Product.name p) = true
  /\ ToBoolean (Product.description p) = true
  /\ valid_price (Product.price p) = true
  /\ length_within (Product.name p) 100%float
  /\ length_within (Product.description p) 500%float
  /\ (Product.image p = JUndefined \/ ToBoolean (Product.image p) = true).

(** The request is a Create with a body the validation block accepts. *)
Definition valid_create (r : Request) : Prop :=
  exists now1 now2 body, r = ReqPOST now1 now2 body /\ valid_body body.

(** ** The id in the request path *)

(** The code units of a run of decimal digits. *)
Fixpoint digits (u : Decimal.uint) : js_string :=
  match u with
  | Decimal.Nil => []
  | Decimal.D0 u => 48%N :: digits u
  | Decimal.D1 u => 49%N :: digits u
  | Decimal.D2 u => 50%N :: digits u
  | Decimal.D3 u => 51%N :: digits u
  | Decimal.D4 u => 52%N :: digits u
  | Decimal.D5 u => 53%N :: digits u
  | Decimal.D6 u => 54%N :: digits u
  | Decimal.D7 u => 55%N :: digits u
  | Decimal.D8 u => 56%N :: digits u
  | Decimal.D9 u => 57%N :: digits u
  end.

(** [`${id}`] for an integer [id], as the product page writes it into the
    path [/api/Product/${id}]: the decimal digits, with [-] before a
    negative one. This is how the language prints an integer number below
    10^21 in absolute value; the theorems use it up to 2^53, where every
    integer is a number. *)
Definition decimal (id : Z) : js_string :=
  match id with
  | Z0 => [48%N]
  | Zpos p => digits (Pos.to_uint p)
  | Zneg p => 45%N :: digits (Pos.to_uint p)
  end.

(** The part of [parseInt] after the sign: the [0x] prefix and the digits. *)
Definition parse_unsigned (s : js_string) : option Z :=
  let '(radix, s) :=
    match s with
    | c0 :: cx :: rest =>
        if N.eqb c0 48 && (N.eqb cx 120 || N.eqb cx 88) then (16, rest) else (10, s)
    | _ => (10, s)
    end in
  parse_digits radix None s.

(** ** What becomes of an id *)

(** The id of the product a [DELETE] has removed and sent back. *)
Definition deleted_id (r : Response) : list Z :=
  match r with
  | {| status := 200; body := JsonDeleted _ p |} => [Product.id p]
  | _ => []
  end.

Definition deleted_ids (resps : list Response) : list Z :=
  concat (map deleted_id resps).

(** * Theorems *)

(** ** [findIndex] and the array *)

Lemma findIndex_Some {A} (f : A -> bool) (l : list A) (i : nat) (x : A) :
  findIndex f l = Some (i, x) ->
  l !! i = Some x /\ f x = true
  /\ forall j y, (j < i)%nat -> l !! j = Some y -> f y = false.
Proof.
  revert i. induction l as [|a l IH]; intros i H; simpl in H; [discriminate|].
  destruct (f a) eqn:Fa.
  - injection H as <- <-. repeat split; auto. intros j y Hj. lia.
  - destruct (findIndex f l) as [[k y]|] eqn:Fk; [|discriminate].
    injection H as <- <-. destruct (IH k eq_refl) as (Hx & Fx & Hlt).
    repeat split; auto.
    intros [|j] z Hj Hz; simpl in Hz.
    + injection Hz as <-. exact Fa.
    + apply (Hlt j); auto. lia.
Qed.

Lemma findIndex_None {A} (f : A -> bool) (l : list A) :
  findIndex f l = None -> forall x, In x l -> f x = false.
Proof.
  induction l as [|a l IH]; intros H x Hx; simpl in *; [contradiction|].
  destruct (f a) eqn:Fa; [discriminate|].
  destruct (findIndex f l) as [[k y]|] eqn:Fk; [discriminate|].
  destruct Hx as [<-|Hx]; auto.
Qed.

Lemma findIndex_id_None (l : list Product.t) (k : Z) :
  findIndex (fun p => Product.id p =? k) l = None <-> ~ In k (map Product.id l).
Proof.
  split.
  - intros H Hin. apply in_map_iff in Hin as (p & <- & Hp).
    apply (findIndex_None _ _ H) in Hp. simpl in Hp. lia.
  - intros H. destruct (findIndex _ l) as [[i x]|] eqn:E; auto.
    apply findIndex_Some in E as (Hx & Fx & _).
    exfalso. apply H. apply in_map_iff. exists x. split; [lia|].
    apply list_elem_of_In. eapply list_elem_of_lookup_2; eauto.
Qed.

(** Splitting the array at an index. *)
Lemma lookup_split {A} (l : list A) (i : nat) (x : A) :
  l !! i = Some x ->
  l = take i l ++ x :: drop (S i) l /\ delete i l = take i l ++ drop (S i) l.
Proof.
  intros H. split.
  - symmetry. apply take_drop_middle. exact H.
  - apply delete_take_drop.
Qed.

(** ** The validation block *)

Lemma validate_Rejected request r :
  validate request = Normal (Rejected r) ->
  status r = 400 /\ exists msg, body r = JsonError msg.
Proof.
  unfold validate. destruct request as [b|]; [|discriminate].
  destruct (Get b (lit "name")) as [n|]; simpl; try discriminate.
  destruct (Get b (lit "description")) as [d|]; simpl; try discriminate.
  destruct (Get b (lit "price")) as [p|]; simpl; try discriminate.
  destruct (Get b (lit "image")) as [i|]; simpl; try discriminate.
  destruct (_ || _ || _); [intros [= <-]; simpl; eauto|].
  destruct (_ || _); [intros [= <-]; simpl; eauto|].
  destruct (GetLength n) as [nl|]; simpl; try discriminate.
  destruct (GreaterThan nl _) as [[|]|]; simpl; try discriminate;
    [intros [= <-]; simpl; eauto|].
  destruct (GetLength d) as [dl|]; simpl; try discriminate.
  destruct (GreaterThan dl _) as [[|]|]; simpl; try discriminate.
  intros [= <-]; simpl; eauto.
Qed.


(** ** The handlers, case by case *)

Lemma POST_cases s now1 now2 request s' r :
  POST s now1 now2 request = (s', r) ->
  (s' = s /\ validate request = Normal (Rejected r))
  \/ (s' = s /\ validate request = Throw
      /\ r = error_response 500 "Failed to create product")
  \/ exists n d p i,
       validate request = Normal (Accepted n d p i)
       /\ r = {| status := 201;
                 body := JsonProduct
                   (Product.mk (nextId s) n d p (image_or_undefined i) now1 now2) |}
       /\ s' = {| globalProducts := globalProducts s ++
                    [Product.mk (nextId s) n d p (image_or_undefined i) now1 now2];
                  nextProductId := nextId s + 1;
                  nextId := nextId s + 1 |}.
Proof.
  unfold POST. destruct (validate request) as [[n d p i|r0]|]; intros [= <- <-].
  - right. right. exists n, d, p, i. auto.
  - left. auto.
  - right. left. auto.
Qed.

Lemma PUT_with_id_cases s now id request s' r :
  PUT_with_id s now id request = (s', r) ->
  (s' = s /\ validate request = Normal (Rejected r))
  \/ (s' = s /\ validate request = Throw
      /\ r = error_response 500 "Failed to update product")
  \/ (s' = s /\ valid_body request /\ ~ In id (ids s) /\ r = not_found)
  \/ exists n d p i k old,
       validate request = Normal (Accepted n d p i)
       /\ globalProducts s !! k = Some old
       /\ Product.id old = id
       /\ (forall j y, (j < k)%nat -> globalProducts s !! j = Some y -> Product.id y <> id)
       /\ r = {| status := 200;
                 body := JsonProduct
                   (Product.mk (Product.id old) n d p (image_or_undefined i)
                      (Product.createdAt old) now) |}
       /\ s' = {| globalProducts :=
                    <[k := Product.mk (Product.id old) n d p (image_or_undefined i)
                             (Product.createdAt old) now]> (globalProducts s);
                  nextProductId := nextProductId s;
                  nextId := nextId s |}.
Proof.
  unfold PUT_with_id.
  destruct (validate request) as [[n d p i|r0]|] eqn:V.
  - destruct (findIndex _ _) as [[k old]|] eqn:F.
    + destruct (findIndex_Some _ _ _ _ F) as (Hk & Hid & Hlt).
      intros [= <- <-].
      do 3 right. exists n, d, p, i, k, old. simpl in Hid.
      do 2 (split; [auto|]). split; [lia|]. split; [|auto].
      intros j y Hj Hy. specialize (Hlt j y Hj Hy). simpl in Hlt. lia.
    + intros [= <- <-]. right. right. left. repeat split; auto.
      * exists n, d, p, i. exact V.
      * apply findIndex_id_None. exact F.
  - intros [= <- <-]. left. auto.
  - intros [= <- <-]. right. left. auto.
Qed.

Lemma DELETE_with_id_cases s id s' r :
  DELETE_with_id s id = (s', r) ->
  (s' = s /\ ~ In id (ids s) /\ r = not_found)
  \/ exists k deleted,
       globalProducts s !! k = Some deleted
       /\ Product.id deleted = id
       /\ (forall j y, (j < k)%nat -> globalProducts s !! j = Some y -> Product.id y <> id)
       /\ r = {| status := 200;
                 body := JsonDeleted "Product deleted successfully" deleted |}
       /\ s' = {| globalProducts := delete k (globalProducts s);
                  nextProductId := nextProductId s;
                  nextId := nextId s |}.
Proof.
  unfold DELETE_with_id.
  destruct (findIndex _ _) as [[k old]|] eqn:F.
  - destruct (findIndex_Some _ _ _ _ F) as (Hk & Hid & Hlt).
    intros [= <- <-]. simpl in Hid.
    right. exists k, old. do 1 (split; [auto|]). split; [lia|]. split; [|auto].
    intros j y Hj Hy. specialize (Hlt j y Hj Hy). simpl in Hlt. lia.
  - intros [= <- <-]. left. repeat split; auto.
    apply findIndex_id_None. exact F.
Qed.

Lemma created_id_not_201 r : status r <> 201 -> created_id r = [].
Proof.
  destruct r as [st b]. simpl. intros H. unfold created_id.
  destruct st as [|q|q]; auto.
  do 8 (destruct q as [q|q|]; auto). contradiction.
Qed.

Lemma ids_insert_same (l : list Product.t) k old new :
  l !! k = Some old -> Product.id new = Product.id old ->
  map Product.id (<[k := new]> l) = map Product.id l.
Proof.
  intros Hk Hid.
  change (Product.id <$> <[k := new]> l = Product.id <$> l).
  rewrite list_fmap_insert, Hid.
  apply list_insert_id. rewrite list_lookup_fmap, Hk. reflexivity.
Qed.

(** ** The store invariant *)

Lemma initial_store_inv c1 c2 c3 c4 : store_inv (initial_store c1 c2 c3 c4).
Proof.
  unfold store_inv, ids. simpl. repeat split.
  - constructor; [simpl; lia|]. constructor; [simpl; tauto|]. constructor.
  - intros i [<-|[<-|[]]]; lia.
Qed.

(** A successful [DELETE] takes one record out of the array: the first,
    and in a store with distinct ids the only one, with the parsed id. *)
Lemma DELETE_success s idParam s' msg p :
  store_inv s ->
  DELETE s idParam = (s', {| status := 200; body := JsonDeleted msg p |}) ->
  exists l1 l2,
    parseInt idParam = Some (Product.id p)
    /\ globalProducts s = l1 ++ p :: l2
    /\ globalProducts s' = l1 ++ l2
    /\ nextId s' = nextId s /\ nextProductId s' = nextProductId s
    /\ ~ In (Product.id p) (ids s')
    /\ Product.id p < nextId s
    /\ store_inv s'.
Proof.
  intros (ND & Lt & Eq) H. unfold DELETE in H.
  destruct (parseInt idParam) as [id|]; [|discriminate].
  apply DELETE_with_id_cases in H as [(_ & _ & E)|(k & x & Hk & Hid & _ & E & ->)];
    [discriminate|].
  injection E as -> ->.
  destruct (lookup_split _ _ _ Hk) as [E1 E2].
  exists (take k (globalProducts s)), (drop (S k) (globalProducts s)).
  simpl. rewrite Hid.
  assert (Hids : ids s = map Product.id (take k (globalProducts s))
                         ++ Product.id x :: map Product.id (drop (S k) (globalProducts s))).
  { unfold ids. rewrite E1 at 1. rewrite map_app. reflexivity. }
  assert (Hids' : map Product.id (delete k (globalProducts s))
                  = map Product.id (take k (globalProducts s))
                    ++ map Product.id (drop (S k) (globalProducts s))).
  { rewrite E2, map_app. reflexivity. }
  rewrite Hids in ND. apply List.NoDup_remove in ND as [ND' Nin].
  assert (Hsub : forall i, In i (map Product.id (delete k (globalProducts s))) -> In i (ids s)).
  { intros i Hi. rewrite Hids' in Hi. rewrite Hids.
    apply in_app_iff in Hi as [Hi|Hi]; apply in_app_iff; [left|right; right]; auto. }
  do 5 (split; [auto|]). split; [|split; [|split; [|split]]].
  - unfold ids. simpl. rewrite Hids', <- Hid. exact Nin.
  - rewrite <- Hid. apply Lt. rewrite Hids. apply in_app_iff. right. left. reflexivity.
  - unfold ids. simpl. rewrite Hids'. exact ND'.
  - unfold ids. simpl. intros i Hi. apply Lt. auto.
  - exact Eq.
Qed.

(** One request: the invariant is kept, and either no id is handed out and
    no id enters the store, or [nextId] is handed out and appended. *)
Lemma handle_step s r s' resp :
  store_inv s ->
  handle s r = (s', resp) ->
  store_inv s'
  /\ ((created_id resp = [] /\ nextId s' = nextId s
       /\ forall i, In i (ids s') -> In i (ids s))
      \/ (created_id resp = [nextId s] /\ nextId s' = nextId s + 1
          /\ ids s' = ids s ++ [nextId s])).
Proof.
  intros Inv H.
  assert (Same : forall resp0, status resp0 <> 201 ->
            store_inv s /\ ((created_id resp0 = [] /\ nextId s = nextId s
              /\ forall i, In i (ids s) -> In i (ids s))
              \/ (created_id resp0 = [nextId s] /\ nextId s = nextId s + 1
                  /\ ids s = ids s ++ [nextId s]))).
  { intros resp0 Hst. split; auto. left. split; auto using created_id_not_201. }
  destruct r as [|now1 now2 b|now idp b|idp]; simpl in H.
  - injection H as <- <-. apply Same. simpl. lia.
  - apply POST_cases in H as [(-> & V)|[(-> & _ & ->)|(n & d & p & i & _ & -> & ->)]].
    + apply Same. apply validate_Rejected in V as [-> _]. lia.
    + apply Same. simpl. lia.
    + destruct Inv as (ND & Lt & Eq). split.
      * unfold store_inv, ids. simpl. rewrite map_app. simpl.
        split; [|split; [|reflexivity]].
        -- apply List.NoDup_app; auto.
           ++ constructor; [intros []|constructor].
           ++ intros x Hx [<-|[]]. apply Lt in Hx. lia.
        -- intros x [Hx|[<-|[]]]%in_app_iff; [apply Lt in Hx|]; lia.
      * right. unfold ids. simpl. rewrite map_app. auto.
  - unfold PUT in H. destruct (parseInt idp) as [id|].
    + apply PUT_with_id_cases in H
        as [(-> & V)|[(-> & _ & ->)|[(-> & _ & _ & ->)
            |(n & d & p & i & k & old & _ & Hk & _ & _ & -> & ->)]]].
      * apply Same. apply validate_Rejected in V as [-> _]. lia.
      * apply Same. simpl. lia.
      * apply Same. simpl. lia.
      * assert (E : ids {| globalProducts :=
                         <[k := Product.mk (Product.id old) n d p (image_or_undefined i)
                                  (Product.createdAt old) now]> (globalProducts s);
                         nextProductId := nextProductId s; nextId := nextId s |} = ids s).
        { unfold ids. simpl. eapply ids_insert_same; eauto. }
        destruct Inv as (ND & Lt & Eq). split.
        -- unfold store_inv. rewrite E. simpl. auto.
        -- left. rewrite E. simpl. auto.
    + injection H as <- <-. apply Same. simpl. lia.
  - pose proof H as H0. unfold DELETE in H. destruct (parseInt idp) as [id|].
    + apply DELETE_with_id_cases in H as [(-> & _ & ->)|(k & x & Hk & _ & _ & -> & E)].
      * apply Same. simpl. lia.
      * destruct (DELETE_success _ _ _ _ _ Inv H0)
          as (l1 & l2 & _ & E1 & E2 & En & _ & _ & _ & Inv').
        split; auto. left. split; [reflexivity|]. split; [exact En|].
        unfold ids. rewrite E1, E2, !map_app. simpl.
        intros i [Hi|Hi]%in_app_iff; apply in_app_iff; [left|right; right]; auto.
    + injection H as <- <-. apply Same. simpl. lia.
Qed.

Lemma created_ids_cons resp resps :
  created_ids (resp :: resps) = created_id resp ++ created_ids resps.
Proof. reflexivity. Qed.

Lemma serve_cons s r rest :
  serve s (r :: rest) =
  (fst (serve (fst (handle s r)) rest), snd (handle s r) :: snd (serve (fst (handle s r)) rest)).
Proof.
  simpl. destruct (handle s r) as [s1 resp]. simpl.
  destruct (serve s1 rest) as [s2 resps]. reflexivity.
Qed.

Lemma serve_app s rs1 rs2 :
  serve s (rs1 ++ rs2) =
  (fst (serve (fst (serve s rs1)) rs2), snd (serve s rs1) ++ snd (serve (fst (serve s rs1)) rs2)).
Proof.
  revert s. induction rs1 as [|r rs1 IH]; intros s.
  - simpl. destruct (serve s rs2); reflexivity.
  - rewrite <- app_comm_cons, !serve_cons, IH. reflexivity.
Qed.

(** Any run: the invariant is kept, the counter advances by one for every
    id handed out, the ids handed out lie between the counter before and the
    counter after and increase strictly, and every id in the store was there
    before or was handed out during the run. *)
Lemma serve_inv rs : forall s s' resps,
  store_inv s ->
  serve s rs = (s', resps) ->
  store_inv s'
  /\ nextId s' = nextId s + Z.of_nat (length (created_ids resps))
  /\ (forall i, In i (created_ids resps) -> nextId s <= i < nextId s')
  /\ StronglySorted Z.lt (created_ids resps)
  /\ (forall i, In i (ids s') -> In i (ids s) \/ In i (created_ids resps)).
Proof.
  induction rs as [|r rs IH]; intros s s' resps Inv H.
  - injection H as <- <-.
    split; [auto|]. split; [simpl; lia|]. split; [intros i []|].
    split; [constructor|auto].
  - rewrite serve_cons in H.
    destruct (handle s r) as [s1 resp] eqn:Hr. simpl in H.
    destruct (serve s1 rs) as [s2 resps2] eqn:Hs. simpl in H.
    injection H as <- <-.
    destruct (handle_step _ _ _ _ Inv Hr) as (Inv1 & Eff).
    destruct (IH _ _ _ Inv1 Hs) as (Inv2 & Cnt & Rng & Srt & Sub).
    rewrite created_ids_cons, length_app.
    destruct Eff as [(-> & En & Hsub)|(-> & En & Hids)]; simpl.
    + rewrite En in *. split; [auto|]. split; [lia|]. do 2 (split; [auto|]).
      intros i Hi. destruct (Sub i Hi); auto.
    + rewrite En in *. split; [auto|]. split; [lia|]. split; [|split].
      * intros i [<-|Hi]; [lia|]. apply Rng in Hi. lia.
      * constructor; auto. apply List.Forall_forall. intros x Hx.
        apply Rng in Hx. lia.
      * intros i Hi. destruct (Sub i Hi) as [Hi'|Hi']; auto.
        rewrite Hids in Hi'. apply in_app_iff in Hi' as [Hi'|[<-|[]]]; auto.
Qed.

(** ** Identifiers (C1) *)

(** C1. In every store the process reaches, the product ids are pairwise
    distinct. The counter is strictly greater than every id ever assigned:
    the seeds' 1 and 2 and every id a Create returned. The ids returned by
    successful Creates, in the order of the calls and after the seeds',
    increase strictly. An id removed by a successful Delete is not returned
    by any later Create. *)
Theorem ids_distinct_increasing_never_reused :
  forall c1 c2 c3 c4 rs s resps,
    serve (initial_store c1 c2 c3 c4) rs = (s, resps) ->
    List.NoDup (ids s)
    /\ (forall i, In i (1 :: 2 :: created_ids resps) -> i < nextId s)
    /\ StronglySorted Z.lt (1 :: 2 :: created_ids resps)
    /\ (forall rs1 idParam rs2 s1 resps1 s2 msg p resps2,
          rs = rs1 ++ ReqDELETE idParam :: rs2 ->
          serve (initial_store c1 c2 c3 c4) rs1 = (s1, resps1) ->
          DELETE s1 idParam = (s2, {| status := 200; body := JsonDeleted msg p |}) ->
          serve s2 rs2 = (s, resps2) ->
          ~ In (Product.id p) (created_ids resps2)).
Proof.
  intros c1 c2 c3 c4 rs s resps H.
  pose proof (initial_store_inv c1 c2 c3 c4) as Inv0.
  destruct (serve_inv _ _ _ _ Inv0 H) as ((ND & Lt & Eq) & Cnt & Rng & Srt & Sub).
  simpl in Cnt, Rng.
  split; [exact ND|]. split; [|split].
  - intros i [<-|[<-|Hi]]; [lia|lia|]. apply Rng in Hi. lia.
  - constructor; [constructor; [exact Srt|]|].
    + apply List.Forall_forall. intros x Hx. apply Rng in Hx. lia.
    + constructor; [lia|]. apply List.Forall_forall. intros x Hx. apply Rng in Hx. lia.
  - intros rs1 idParam rs2 s1 resps1 s2 msg p resps2 _ H1 HD H2 Hin.
    destruct (serve_inv _ _ _ _ Inv0 H1) as (Inv1 & _).
    destruct (DELETE_success _ _ _ _ _ Inv1 HD)
      as (l1 & l2 & _ & _ & _ & En & _ & _ & Hlt & Inv2).
    destruct (serve_inv _ _ _ _ Inv2 H2) as (_ & _ & Rng2 & _).
    apply Rng2 in Hin. lia.
Qed.

(** ** Create on the seeded store (C3) *)

Lemma POST_valid s now1 now2 request n d p i :
  validate request = Normal (Accepted n d p i) ->
  POST s now1 now2 request =
  ({| globalProducts := globalProducts s ++
        [Product.mk (nextId s) n d p (image_or_undefined i) now1 now2];
      nextProductId := nextId s + 1;
      nextId := nextId s + 1 |},
   {| status := 201;
      body := JsonProduct
        (Product.mk (nextId s) n d p (image_or_undefined i) now1 now2) |}).
Proof. intros V. unfold POST. rewrite V. reflexivity. Qed.

Lemma validate_body_A_B_10 :
  validate (Some body_A_B_10)
  = Normal (Accepted (JString (lit "A")) (JString (lit "B")) (JNumber 10%float) JUndefined).
Proof. reflexivity. Qed.

(** C3, as the code has it. The store is never created empty: it starts with
    the seeds 1 and 2 and the counter at 3. On the store as initialised, and
    on every store reached from it before any Create (the emptied store, both
    seeds deleted, among them), Create of [{name: "A", description: "B",
    price: 10}] returns id 3 with these fields, the image unset, and
    [createdAt] and [updatedAt] the two clock readings it takes; a second
    Create of any valid product returns id 4. *)
Theorem first_create_returns_3_second_4 :
  forall c1 c2 c3 c4 rs s resps now1 now2 now3 now4 request2,
    serve (initial_store c1 c2 c3 c4) rs = (s, resps) ->
    created_ids resps = [] ->
    valid_body request2 ->
    exists s1 s2 p2,
      POST s now1 now2 (Some body_A_B_10)
      = (s1, {| status := 201;
                body := JsonProduct
                  (Product.mk 3 (JString (lit "A")) (JString (lit "B"))
                     (JNumber 10%float) JUndefined now1 now2) |})
      /\ POST s1 now3 now4 request2
         = (s2, {| status := 201; body := JsonProduct p2 |})
      /\ Product.id p2 = 4.
Proof.
  intros c1 c2 c3 c4 rs s resps now1 now2 now3 now4 request2 H Hc (n & d & p & i & V).
  destruct (serve_inv _ _ _ _ (initial_store_inv c1 c2 c3 c4) H) as (_ & Hn & _).
  rewrite Hc in Hn. simpl in Hn.
  eexists. eexists. eexists. split; [|split].
  - rewrite (POST_valid _ _ _ _ _ _ _ _ validate_body_A_B_10), Hn. reflexivity.
  - rewrite (POST_valid _ _ _ _ _ _ _ _ V). reflexivity.
  - simpl. lia.
Qed.

(** ** Update of an unknown id (C4) *)

Lemma PUT_not_200_unchanged s now idParam request s' r :
  PUT s now idParam request = (s', r) -> status r <> 200 -> s' = s.
Proof.
  unfold PUT. destruct (parseInt idParam) as [id|]; [|intros [= <- <-]; auto].
  intros H Hst.
  apply PUT_with_id_cases in H
    as [(-> & _)|[(-> & _)|[(-> & _)|(n & d & p & i & k & old & _ & _ & _ & _ & -> & _)]]];
    auto.
  simpl in Hst. lia.
Qed.

(** C4, as the code has it. Validation runs before the lookup. An Update of
    an id that no record has answers 404 "Product not found" when the body
    passes validation, and the 400 of the validation block when it does not;
    it never answers 200 and never changes the store. *)
Theorem update_unknown_id :
  forall s now idParam id request,
    parseInt idParam = Some id ->
    ~ In id (ids s) ->
    (valid_body request -> PUT s now idParam request = (s, not_found))
    /\ (forall r, validate request = Normal (Rejected r) ->
                  PUT s now idParam request = (s, r) /\ status r = 400)
    /\ (forall s' r, PUT s now idParam request = (s', r) ->
                     s' = s /\ status r <> 200).
Proof.
  intros s now idParam id request Hp Hin. unfold PUT. rewrite Hp.
  pose proof Hin as Hnone. apply findIndex_id_None in Hnone.
  split; [|split].
  - intros (n & d & p & i & V). unfold PUT_with_id. rewrite V, Hnone. reflexivity.
  - intros r V. unfold PUT_with_id. rewrite V. split; auto.
    apply validate_Rejected in V as [-> _]. reflexivity.
  - intros s' r H.
    apply PUT_with_id_cases in H
      as [(-> & V)|[(-> & _ & ->)|[(-> & _ & _ & ->)
          |(n & d & p & i & k & old & _ & Hk & Hid & _)]]].
    + split; [reflexivity|]. apply validate_Rejected in V as [-> _]. lia.
    + split; [reflexivity|]. simpl. lia.
    + split; [reflexivity|]. simpl. lia.
    + exfalso. apply Hin. apply in_map_iff. exists old. split; [exact Hid|].
      apply list_elem_of_In. eapply list_elem_of_lookup_2; eauto.
Qed.

(** ** Length limits (C5) *)

Lemma length_up_to_100 (k : nat) :
  (k <= 100)%nat -> PrimFloat.ltb 100%float (number_of_nat k) = false.
Proof.
  intros Hk.
  assert (All : forallb (fun j => negb (PrimFloat.ltb 100%float (number_of_nat j)))
                  (seq 0 101) = true) by (vm_compute; reflexivity).
  rewrite forallb_forall in All.
  apply negb_true_iff, All, in_seq. lia.
Qed.

(** The validation block on a body whose name and description are strings
    and whose price is valid. *)
Lemma validate_strings b n d price image :
  Get b (lit "name") = Normal (JString n) ->
  Get b (lit "description") = Normal (JString d) ->
  Get b (lit "price") = Normal price ->
  Get b (lit "image") = Normal image ->
  valid_price price = true ->
  validate (Some b) =
  if Nat.eqb (length n) 0 || Nat.eqb (length d) 0
  then Normal (Rejected (error_response 400 "Name, description, and price are required"))
  else if PrimFloat.ltb 100%float (number_of_nat (length n))
  then Normal (Rejected (error_response 400 "Name must be 100 characters or less"))
  else if PrimFloat.ltb 500%float (number_of_nat (length d))
  then Normal (Rejected (error_response 400 "Description must be 500 characters or less"))
  else Normal (Accepted (JString n) (JString d) price image).
Proof.
  intros Hn Hd Hp Hi Vp. unfold valid_price in Vp.
  apply andb_true_iff in Vp as [Vp Le]. apply andb_true_iff in Vp as [Tp Np].
  apply negb_true_iff in Le.
  unfold validate. rewrite Hn, Hd, Hp, Hi. simpl.
  rewrite Tp, Np, Le. simpl.
  destruct (Nat.eqb (length n) 0); simpl; [reflexivity|].
  destruct (Nat.eqb (length d) 0); simpl; [reflexivity|].
  destruct (PrimFloat.ltb 100 (number_of_nat (length n))); simpl; [reflexivity|].
  destruct (PrimFloat.ltb 500 (number_of_nat (length d))); reflexivity.
Qed.

Lemma PUT_with_id_found s now id request n d p i :
  validate request = Normal (Accepted n d p i) ->
  In id (ids s) ->
  exists k old,
    globalProducts s !! k = Some old /\ Product.id old = id
    /\ PUT_with_id s now id request
       = ({| globalProducts :=
               <[k := Product.mk (Product.id old) n d p (image_or_undefined i)
                        (Product.createdAt old) now]> (globalProducts s);
             nextProductId := nextProductId s;
             nextId := nextId s |},
          {| status := 200;
             body := JsonProduct
               (Product.mk (Product.id old) n d p (image_or_undefined i)
                  (Product.createdAt old) now) |}).
Proof.
  intros V Hin. unfold PUT_with_id. rewrite V.
  destruct (findIndex _ _) as [[k old]|] eqn:F.
  - destruct (findIndex_Some _ _ _ _ F) as (Hk & Hid & _).
    exists k, old. simpl in Hid. repeat split; auto. lia.
  - apply findIndex_id_None in F. contradiction.
Qed.

Lemma PUT_Rejected s now idParam id request r :
  parseInt idParam = Some id ->
  validate request = Normal (Rejected r) ->
  PUT s now idParam request = (s, r).
Proof. intros Hp V. unfold PUT, PUT_with_id. rewrite Hp, V. reflexivity. Qed.

Lemma POST_Rejected s now1 now2 request r :
  validate request = Normal (Rejected r) ->
  POST s now1 now2 request = (s, r).
Proof. intros V. unfold POST. rewrite V. reflexivity. Qed.

(** C5. With the other fields valid, a name of exactly 100 code units and a
    description of exactly 500 are accepted: Create, on any store, appends
    the record with these fields under the id [nextId] and answers 201 with
    it, and Update of an id in the store overwrites that record with them
    and answers 200 with it. A name of 101 is refused with the message about
    the name's length, a description of 501 with the message about the
    description's, by Create and by Update alike (whether or not the id
    exists), and the store is left as it was. *)
Theorem length_limits_100_and_500 :
  forall s now1 now2 now idParam id b n d price image,
    Get b (lit "name") = Normal (JString n) ->
    Get b (lit "description") = Normal (JString d) ->
    Get b (lit "price") = Normal price ->
    Get b (lit "image") = Normal image ->
    valid_price price = true ->
    parseInt idParam = Some id ->
    (length n = 100%nat -> length d = 500%nat ->
       POST s now1 now2 (Some b)
       = ({| globalProducts := globalProducts s ++
               [Product.mk (nextId s) (JString n) (JString d) price
                  (image_or_undefined image) now1 now2];
             nextProductId := nextId s + 1;
             nextId := nextId s + 1 |},
          {| status := 201;
             body := JsonProduct
               (Product.mk (nextId s) (JString n) (JString d) price
                  (image_or_undefined image) now1 now2) |})
       /\ (In id (ids s) ->
           exists k old,
             globalProducts s !! k = Some old /\ Product.id old = id
             /\ PUT s now idParam (Some b)
                = ({| globalProducts :=
                        <[k := Product.mk (Product.id old) (JString n) (JString d) price
                                 (image_or_undefined image) (Product.createdAt old) now]>
                          (globalProducts s);
                      nextProductId := nextProductId s;
                      nextId := nextId s |},
                   {| status := 200;
                      body := JsonProduct
                        (Product.mk (Product.id old) (JString n) (JString d) price
                           (image_or_undefined image) (Product.createdAt old) now) |})))
    /\ (length n = 101%nat -> (0 < length d)%nat ->
          POST s now1 now2 (Some b)
          = (s, error_response 400 "Name must be 100 characters or less")
          /\ PUT s now idParam (Some b)
             = (s, error_response 400 "Name must be 100 characters or less"))
    /\ ((0 < length n <= 100)%nat -> length d = 501%nat ->
          POST s now1 now2 (Some b)
          = (s, error_response 400 "Description must be 500 characters or less")
          /\ PUT s now idParam (Some b)
             = (s, error_response 400 "Description must be 500 characters or less")).
Proof.
  intros s now1 now2 now idParam id b n d price image Hn Hd Hp Hi Vp Hid.
  pose proof (validate_strings _ _ _ _ _ Hn Hd Hp Hi Vp) as V.
  split; [|split].
  - intros Ln Ld. rewrite Ln, Ld in V.
    change (validate (Some b) = Normal (Accepted (JString n) (JString d) price image)) in V.
    split.
    + apply POST_valid. exact V.
    + intros Hin.
      destruct (PUT_with_id_found s now id _ _ _ _ _ V Hin) as (k & old & Hk & Ho & E).
      exists k, old. split; [exact Hk|]. split; [exact Ho|].
      unfold PUT. rewrite Hid. exact E.
  - intros Ln Ld. rewrite Ln in V.
    destruct (length d) as [|m]; [lia|]. simpl in V.
    change (validate (Some b) = Normal (Rejected
              (error_response 400 "Name must be 100 characters or less"))) in V.
    split; [apply POST_Rejected | eapply PUT_Rejected]; eauto.
  - intros Ln Ld. rewrite Ld in V.
    rewrite (length_up_to_100 (length n)) in V by lia.
    destruct (length n) as [|m]; [lia|]. simpl in V.
    change (validate (Some b) = Normal (Rejected
              (error_response 400 "Description must be 500 characters or less"))) in V.
    split; [apply POST_Rejected | eapply PUT_Rejected]; eauto.
Qed.

(** ** Failed validation and the store (C6) *)

(** C6. When Create or Update answers 400, which every failure of the
    validation block does, the store (the array, every record and both
    counters) is the store before the call. *)
Theorem validation_error_leaves_store :
  forall s now1 now2 now idParam request s' r,
    POST s now1 now2 request = (s', r) \/ PUT s now idParam request = (s', r) ->
    status r = 400 ->
    s' = s.
Proof.
  intros s now1 now2 now idParam request s' r [H|H] Hst.
  - apply POST_cases in H as [(-> & _)|[(-> & _)|(n & d & p & i & _ & -> & _)]]; auto.
    simpl in Hst. lia.
  - apply (PUT_not_200_unchanged _ _ _ _ _ _ H). lia.
Qed.

(** ** What a successful Update changes (C7) *)

(** C7, as the code has it. A successful Update rewrites one record, the
    first (in a reachable store the only one) with the parsed id: name,
    description, price and image come from the request, [updatedAt] is the
    clock reading the update takes, id and [createdAt] are kept. Every other
    record, the length of the array and the counters are unchanged. The new
    [updatedAt] is at least the previous one whenever the clock reading is
    not earlier than the previous [updatedAt]; nothing in the handler
    compares the two. *)
Theorem update_changes_one_record :
  forall s now idParam request s' r,
    PUT s now idParam request = (s', r) ->
    status r = 200 ->
    exists id k old new n d p i,
      parseInt idParam = Some id
      /\ validate request = Normal (Accepted n d p i)
      /\ globalProducts s !! k = Some old /\ Product.id old = id
      /\ new = Product.mk (Product.id old) n d p (image_or_undefined i)
                 (Product.createdAt old) now
      /\ r = {| status := 200; body := JsonProduct new |}
      /\ globalProducts s' !! k = Some new
      /\ (forall j, j <> k -> globalProducts s' !! j = globalProducts s !! j)
      /\ length (globalProducts s') = length (globalProducts s)
      /\ nextId s' = nextId s /\ nextProductId s' = nextProductId s
      /\ (Product.updatedAt old <= now -> Product.updatedAt old <= Product.updatedAt new).
Proof.
  intros s now idParam request s' r H Hst. unfold PUT in H.
  destruct (parseInt idParam) as [id|] eqn:Hp;
    [|injection H as <- <-; simpl in Hst; lia].
  apply PUT_with_id_cases in H
    as [(-> & V)|[(-> & _ & ->)|[(-> & _ & _ & ->)
        |(n & d & p & i & k & old & V & Hk & Hid & _ & -> & ->)]]].
  - apply validate_Rejected in V as [V _]. lia.
  - simpl in Hst. lia.
  - simpl in Hst. lia.
  - exists id, k, old, (Product.mk (Product.id old) n d p (image_or_undefined i)
                         (Product.createdAt old) now), n, d, p, i.
    simpl. do 6 (split; [auto|]). split; [|split; [|split]].
    + apply list_lookup_insert_eq. eapply lookup_lt_Some; eauto.
    + intros j Hj. apply list_lookup_insert_ne. auto.
    + apply length_insert.
    + auto.
Qed.

(** ** Delete (C8) *)

Lemma DELETE_absent s idParam id :
  parseInt idParam = Some id -> ~ In id (ids s) ->
  DELETE s idParam = (s, not_found).
Proof.
  intros Hp Hin. unfold DELETE, DELETE_with_id. rewrite Hp.
  apply findIndex_id_None in Hin. unfold ids in Hin. rewrite Hin. reflexivity.
Qed.

(** C8. In a store the process reaches, a successful Delete removes exactly
    the record with the parsed id (the records before and after it stay, in
    order, and none of them has that id) and returns that record as it was;
    the counters are untouched. From then on, whatever requests follow, the
    list [GET] returns holds no record with that id, and a Delete of the same
    id answers 404 "Product not found" and changes nothing. *)
Theorem delete_removes_record_for_good :
  forall c1 c2 c3 c4 rs s resps idParam s' r,
    serve (initial_store c1 c2 c3 c4) rs = (s, resps) ->
    DELETE s idParam = (s', r) ->
    status r = 200 ->
    exists p l1 l2,
      parseInt idParam = Some (Product.id p)
      /\ r = {| status := 200; body := JsonDeleted "Product deleted successfully" p |}
      /\ globalProducts s = l1 ++ p :: l2
      /\ globalProducts s' = l1 ++ l2
      /\ ~ In (Product.id p) (map Product.id (l1 ++ l2))
      /\ nextId s' = nextId s /\ nextProductId s' = nextProductId s
      /\ forall rs' s'' resps',
           serve s' rs' = (s'', resps') ->
           (exists products,
              GET s'' = (s'', {| status := 200; body := JsonProducts products |})
              /\ ~ In (Product.id p) (map Product.id products))
           /\ DELETE s'' idParam = (s'', not_found).
Proof.
  intros c1 c2 c3 c4 rs s resps idParam s' r Hs HD Hst.
  destruct (serve_inv _ _ _ _ (initial_store_inv c1 c2 c3 c4) Hs) as (Inv & _).
  assert (Hr : exists p, r = {| status := 200;
                                body := JsonDeleted "Product deleted successfully" p |}).
  { unfold DELETE in HD. destruct (parseInt idParam) as [id|];
      [|injection HD as <- <-; simpl in Hst; lia].
    apply DELETE_with_id_cases in HD as [(_ & _ & ->)|(k & x & _ & _ & _ & -> & _)].
    - simpl in Hst. lia.
    - eauto. }
  destruct Hr as (p & ->).
  destruct (DELETE_success _ _ _ _ _ Inv HD)
    as (l1 & l2 & Hp & E1 & E2 & En & Eg & Nin & Hlt & Inv').
  exists p, l1, l2. do 4 (split; [auto|]).
  split; [unfold ids in Nin; rewrite E2 in Nin; exact Nin|].
  split; [exact En|]. split; [exact Eg|].
  intros rs' s'' resps' Hs'.
  destruct (serve_inv _ _ _ _ Inv' Hs') as (_ & _ & Rng & _ & Sub).
  assert (Nin'' : ~ In (Product.id p) (ids s'')).
  { intros Hin. destruct (Sub _ Hin) as [Hin'|Hin']; [contradiction|].
    apply Rng in Hin'. lia. }
  split.
  - exists (globalProducts s''). split; [reflexivity|exact Nin''].
  - apply (DELETE_absent _ _ _ Hp Nin'').
Qed.

(** ** The id parameter (C9) *)

(** What the guard [isNaN(id)] does refuse. The id is read with [parseInt],
    which takes the longest run of digits after optional white space, a sign
    and [0x] and ignores what follows. When that yields [NaN] (no digit to
    read), [PUT] and [DELETE] answer 400 "Invalid product ID" and leave the
    store, whatever the body. *)
Lemma unparsable_id_is_400 :
  forall s now idParam request,
    parseInt idParam = None ->
    PUT s now idParam request = (s, error_response 400 "Invalid product ID")
    /\ DELETE s idParam = (s, error_response 400 "Invalid product ID").
Proof.
  intros s now idParam request Hp. unfold PUT, DELETE. rewrite Hp. split; reflexivity.
Qed.

(** ** Values that are not strings (C10) *)



(** ** Requests in flight (C2) *)

(** Resuming a pending task either leaves the store and keeps the task
    pending, or completes the request: store and response are those of the
    handler run on the store of that moment. *)
Lemma pending_resume req t :
  pending req t ->
  exists k, t = Suspended k
    /\ forall s s' t', k s = (s', t') ->
         (s' = s /\ pending req t')
         \/ (exists r, t' = Done r /\ handle s req = (s', r)).
Proof.
  assert (Fin : forall (o : Store * Response) s' t',
            finish o = (s', t') -> exists r, t' = Done r /\ o = (s', r)).
  { intros [s1 r] s' t' [= <- <-]. eauto. }
  intros [->|(now & idp & b & id & -> & Hp & ->)].
  - destruct req as [|now1 now2 b|now idp b|idp]; simpl; eexists; (split; [reflexivity|]);
      intros s s' t' H; simpl in H.
    + right. apply Fin. exact H.
    + right. apply Fin. exact H.
    + unfold PUT. destruct (parseInt idp) as [id|] eqn:Hp; injection H as <- <-.
      * left. split; auto. right. exists now, idp, b, id. auto.
      * right. eauto.
    + right. apply Fin. exact H.
  - eexists. split; [reflexivity|]. intros s s' t' H. simpl in H.
    assert (E : handle s (ReqPUT now idp b) = PUT_with_id s now id b)
      by (simpl; unfold PUT; rewrite Hp; reflexivity).
    rewrite E. right. apply Fin. exact H.
Qed.

Lemma in_order_snoc order i reqs req :
  reqs !! i = Some req ->
  in_order (order ++ [i]) reqs = in_order order reqs ++ [req].
Proof.
  intros H. unfold in_order. rewrite flat_map_app. simpl. rewrite H. reflexivity.
Qed.

Lemma serial_view_start s0 reqs : serial_view s0 reqs [] (s0, map task_of reqs).
Proof.
  unfold serial_view. simpl. split; [apply length_map|]. split; [constructor|]. split.
  - exists []. split; [reflexivity|constructor].
  - intros i req Hi _. exists (task_of req). split; [|left; reflexivity].
    change (map task_of reqs) with (task_of <$> reqs).
    rewrite list_lookup_fmap, Hi. reflexivity.
Qed.

(** One turn of the loop keeps the serial view, with the resumed request
    appended to the order when it returns. *)
Lemma serial_view_resume s0 reqs order w i w' :
  serial_view s0 reqs order w ->
  resume_task i w = Some w' ->
  exists order', serial_view s0 reqs order' w'.
Proof.
  destruct w as [s pool]. intros (Hlen & ND & (resps & Hserve & Hdone) & Hpend) H.
  unfold resume_task in H. simpl in *.
  destruct (pool !! i) as [[r|k]|] eqn:Hi; try discriminate.
  destruct (k s) as [s' t'] eqn:Hk. injection H as <-.
  assert (Hlt : (i < length reqs)%nat) by (rewrite <- Hlen; eapply lookup_lt_Some; eauto).
  destruct (lookup_lt_is_Some_2 reqs i Hlt) as [req Hreq].
  assert (Hnin : ~ In i order).
  { intros Hin. apply list_elem_of_In, list_elem_of_lookup in Hin as [j Hj].
    destruct (Forall2_lookup_l _ _ _ _ _ Hdone Hj) as (r & _ & Hr).
    rewrite Hi in Hr. discriminate. }
  destruct (Hpend i req Hreq Hnin) as (t & Ht & Pt).
  rewrite Hi in Ht. injection Ht as <-.
  destruct (pending_resume _ _ Pt) as (k0 & [= <-] & Hstep).
  assert (Hkeep : forall order0 resps0,
            Forall2 (fun j r => pool !! j = Some (Done r)) order0 resps0 ->
            ~ In i order0 ->
            Forall2 (fun j r => <[i := t']> pool !! j = Some (Done r)) order0 resps0).
  { intros order0 resps0 F. induction F as [|j r o rs Hj F IH]; intros Hn; constructor.
    - rewrite list_lookup_insert_ne; [exact Hj|]. intros ->. apply Hn. left. reflexivity.
    - apply IH. intros Hin. apply Hn. right. exact Hin. }
  assert (Hothers : forall j reqj, reqs !! j = Some reqj -> ~ In j order -> j <> i ->
            exists t0, <[i := t']> pool !! j = Some t0 /\ pending reqj t0).
  { intros j reqj Hj Hn Hne. rewrite list_lookup_insert_ne by auto. apply Hpend; auto. }
  destruct (Hstep s s' t' Hk) as [(-> & Pt')|(r & -> & Hh)].
  - exists order. unfold serial_view. simpl.
    split; [rewrite length_insert; exact Hlen|]. split; [exact ND|]. split.
    + exists resps. split; [exact Hserve|apply Hkeep; auto].
    + intros j reqj Hj Hn. destruct (Nat.eq_dec j i) as [->|Hne].
      * exists t'. rewrite list_lookup_insert_eq by (eapply lookup_lt_Some; eauto).
        rewrite Hreq in Hj. injection Hj as <-. auto.
      * apply Hothers; auto.
  - exists (order ++ [i]). unfold serial_view. simpl.
    split; [rewrite length_insert; exact Hlen|]. split; [|split].
    + apply List.NoDup_app; auto.
      * constructor; [intros []|constructor].
      * intros x Hx [<-|[]]. contradiction.
    + exists (resps ++ [r]). split.
      * rewrite (in_order_snoc _ _ _ _ Hreq), serve_app, Hserve. simpl. rewrite Hh.
        reflexivity.
      * apply Forall2_app; [apply Hkeep; auto|].
        constructor; [|constructor].
        apply list_lookup_insert_eq. eapply lookup_lt_Some; eauto.
    + intros j reqj Hj Hn. apply Hothers; auto.
      * intros Hin. apply Hn, in_app_iff. left. exact Hin.
      * intros ->. apply Hn, in_app_iff. right. left. reflexivity.
Qed.

Lemma serial_view_run schedule : forall s0 reqs order w w',
  serial_view s0 reqs order w ->
  run_schedule schedule w = Some w' ->
  exists order', serial_view s0 reqs order' w'.
Proof.
  induction schedule as [|i rest IH]; intros s0 reqs order w w' V H; simpl in H.
  - injection H as <-. eauto.
  - destruct (resume_task i w) as [w1|] eqn:R; [|discriminate].
    destruct (serial_view_resume _ _ _ _ _ _ V R) as (order1 & V1).
    eapply IH; eauto.
Qed.

(** When every task has returned, the order covers all requests. *)
Lemma serial_view_complete s0 reqs order w :
  serial_view s0 reqs order w ->
  Forall returned (snd w) ->
  Permutation order (seq 0 (length reqs)).
Proof.
  intros (Hlen & ND & (resps & _ & Hdone) & Hpend) Hall.
  apply Permutation.NoDup_Permutation; [exact ND|apply seq_NoDup|].
  intros i. rewrite in_seq. split.
  - intros Hin. apply list_elem_of_In, list_elem_of_lookup in Hin as [j Hj].
    destruct (Forall2_lookup_l _ _ _ _ _ Hdone Hj) as (r & _ & Hr).
    apply lookup_lt_Some in Hr. lia.
  - intros [_ Hlt]. simpl in Hlt.
    destruct (in_dec Nat.eq_dec i order) as [Hin|Hnin]; [exact Hin|exfalso].
    destruct (lookup_lt_is_Some_2 reqs i Hlt) as [req Hreq].
    destruct (Hpend i req Hreq Hnin) as (t & Ht & Pt).
    destruct (pending_resume _ _ Pt) as (k & -> & _).
    rewrite List.Forall_forall in Hall.
    destruct (Hall (Suspended k)) as (r & Hr); [|discriminate].
    apply list_elem_of_In. eapply list_elem_of_lookup_2; eauto.
Qed.

Lemma serializable s reqs schedule s' pool' :
  run_schedule schedule (s, map task_of reqs) = Some (s', pool') ->
  Forall returned pool' ->
  exists order resps,
    Permutation order (seq 0 (length reqs))
    /\ serve s (in_order order reqs) = (s', resps)
    /\ Forall2 (fun i r => pool' !! i = Some (Done r)) order resps.
Proof.
  intros H Hall.
  destruct (serial_view_run _ _ _ _ _ _ (serial_view_start s reqs) H) as (order & V).
  pose proof (serial_view_complete _ _ _ _ V Hall) as Perm.
  destruct V as (_ & _ & (resps & Hserve & Hdone) & _).
  exists order, resps. auto.
Qed.

Lemma two_creates_serial s now1 now2 now3 now4 body1 body2 resps s' :
  valid_body body1 -> valid_body body2 ->
  serve s [ReqPOST now1 now2 body1; ReqPOST now3 now4 body2] = (s', resps) ->
  exists p1 p2,
    resps = [ {| status := 201; body := JsonProduct p1 |};
              {| status := 201; body := JsonProduct p2 |} ]
    /\ Product.id p1 = nextId s /\ Product.id p2 = nextId s + 1.
Proof.
  intros (n1 & d1 & p1 & i1 & V1) (n2 & d2 & p2 & i2 & V2) H. simpl in H.
  rewrite (POST_valid _ _ _ _ _ _ _ _ V1) in H.
  rewrite (POST_valid _ _ _ _ _ _ _ _ V2) in H. simpl in H.
  injection H as <- <-. eexists. eexists. split; [reflexivity|]. simpl. auto.
Qed.

(** C2. The process has one thread and a handler gives way only at an
    [await]; every handler reads and writes the store in its last stretch
    only. So whatever the interleaving of the requests in flight, when all
    have returned the store and every response are those of serving the
    requests one after the other in some order: no request sees a Create,
    Update or Delete half done. In particular two Creates in flight with
    valid bodies receive the two ids [nextId] and [nextId + 1], one each. *)
Theorem requests_in_flight_run_as_if_serial :
  (forall s reqs schedule s' pool',
     run_schedule schedule (s, map task_of reqs) = Some (s', pool') ->
     Forall returned pool' ->
     exists order resps,
       Permutation order (seq 0 (length reqs))
       /\ serve s (in_order order reqs) = (s', resps)
       /\ Forall2 (fun i r => pool' !! i = Some (Done r)) order resps)
  /\ (forall s now1 now2 now3 now4 body1 body2 schedule s' r1 r2,
        valid_body body1 -> valid_body body2 ->
        run_schedule schedule
          (s, [POST_task now1 now2 body1; POST_task now3 now4 body2])
        = Some (s', [Done r1; Done r2]) ->
        exists p1 p2,
          r1 = {| status := 201; body := JsonProduct p1 |}
          /\ r2 = {| status := 201; body := JsonProduct p2 |}
          /\ ((Product.id p1 = nextId s /\ Product.id p2 = nextId s + 1)
              \/ (Product.id p2 = nextId s /\ Product.id p1 = nextId s + 1))).
Proof.
  split; [exact serializable|].
  intros s now1 now2 now3 now4 body1 body2 schedule s' r1 r2 V1 V2 H.
  destruct (serializable s [ReqPOST now1 now2 body1; ReqPOST now3 now4 body2]
              schedule s' [Done r1; Done r2] H) as (order & resps & Perm & Hserve & Hdone).
  { repeat constructor; eexists; reflexivity. }
  simpl in Perm. apply Permutation_sym, Permutation_length_2_inv in Perm as [->| ->];
    simpl in_order in Hserve.
  - destruct (two_creates_serial _ _ _ _ _ _ _ _ _ V1 V2 Hserve) as (p1 & p2 & -> & I1 & I2).
    inversion Hdone as [|? ? ? ? E1 Hd']; subst. inversion Hd' as [|? ? ? ? E2 _]; subst.
    simpl in E1, E2. injection E1 as ->. injection E2 as ->.
    exists p1, p2. auto.
  - destruct (two_creates_serial _ _ _ _ _ _ _ _ _ V2 V1 Hserve) as (p2 & p1 & -> & I2 & I1).
    inversion Hdone as [|? ? ? ? E2 Hd']; subst. inversion Hd' as [|? ? ? ? E1 _]; subst.
    simpl in E1, E2. injection E1 as ->. injection E2 as ->.
    exists p1, p2. auto.
Qed.

(** * Further properties of the handlers *)

Lemma validate_inv request n d p i :
  validate request = Normal (Accepted n d p i) ->
  exists b, request = Some b
    /\ Get b (lit "name") = Normal n /\ Get b (lit "description") = Normal d
    /\ Get b (lit "price") = Normal p /\ Get b (lit "image") = Normal i
    /\ ToBoolean n = true /\ ToBoolean d = true /\ valid_price p = true
    /\ length_within n 100%float /\ length_within d 500%float.
Proof.
  unfold validate. destruct request as [b|]; [|discriminate].
  destruct (Get b (lit "name")) as [n'|] eqn:Hn; simpl; try discriminate.
  destruct (Get b (lit "description")) as [d'|] eqn:Hd; simpl; try discriminate.
  destruct (Get b (lit "price")) as [p'|] eqn:Hp; simpl; try discriminate.
  destruct (Get b (lit "image")) as [i'|] eqn:Hi; simpl; try discriminate.
  destruct (ToBoolean n') eqn:Tn; simpl; [|discriminate].
  destruct (ToBoolean d') eqn:Td; simpl; [|discriminate].
  destruct (ToBoolean p') eqn:Tp; simpl; [|discriminate].
  destruct (is_number p') eqn:Np; simpl; [|discriminate].
  destruct (LessEqualZero p') eqn:Le; simpl; [discriminate|].
  destruct (GetLength n') as [nl|] eqn:Ln; simpl; try discriminate.
  destruct (GreaterThan nl _) as [[|]|] eqn:Gn; simpl; try discriminate.
  destruct (GetLength d') as [dl|] eqn:Ld; simpl; try discriminate.
  destruct (GreaterThan dl _) as [[|]|] eqn:Gd; simpl; try discriminate.
  intros [= ? ? ? ?]; subst. exists b.
  do 7 (split; [auto|]). split; [|split].
  - unfold valid_price. rewrite Tp, Np, Le. reflexivity.
  - exists nl. auto.
  - exists dl. auto.
Qed.

(** ** The ids handed out leave no gap *)

Lemma serve_created_consecutive rs : forall s s' resps,
  store_inv s ->
  serve s rs = (s', resps) ->
  created_ids resps = seqZ (nextId s) (nextId s' - nextId s).
Proof.
  induction rs as [|r rs IH]; intros s s' resps Inv H.
  - injection H as <- <-. rewrite Z.sub_diag. reflexivity.
  - rewrite serve_cons in H.
    destruct (handle s r) as [s1 resp] eqn:Hr. simpl in H.
    destruct (serve s1 rs) as [s2 resps2] eqn:Hs. simpl in H.
    injection H as <- <-.
    destruct (handle_step _ _ _ _ Inv Hr) as (Inv1 & Eff).
    destruct (serve_inv _ _ _ _ Inv1 Hs) as (_ & Cnt & _).
    rewrite created_ids_cons, (IH _ _ _ Inv1 Hs).
    destruct Eff as [(-> & En & _)|(-> & En & _)]; rewrite En; simpl.
    + reflexivity.
    + rewrite (seqZ_cons (nextId s)) by lia. f_equal. f_equal; lia.
Qed.

(** X1. In every run from the initial store the ids that Create returns are
    exactly 3, 4, 5, ... up to the counter, in the order of the calls: the
    k-th successful Create gets id 3 + k - 1, whatever failed requests,
    Updates and Deletes come in between. *)
Theorem created_ids_are_consecutive :
  forall c1 c2 c3 c4 rs s resps,
    serve (initial_store c1 c2 c3 c4) rs = (s, resps) ->
    created_ids resps = seqZ 3 (nextId s - 3)
    /\ nextId s = 3 + Z.of_nat (length (created_ids resps))
    /\ nextProductId s = nextId s.
Proof.
  intros c1 c2 c3 c4 rs s resps H.
  pose proof (initial_store_inv c1 c2 c3 c4) as Inv0.
  destruct (serve_inv _ _ _ _ Inv0 H) as ((_ & _ & Eq) & Cnt & _).
  split; [|split; [exact Cnt|exact Eq]].
  apply (serve_created_consecutive _ _ _ _ Inv0 H).
Qed.

(** ** The list in id order *)

Lemma StronglySorted_snoc (l : list Z) (x : Z) :
  StronglySorted Z.lt l -> (forall y, In y l -> y < x) ->
  StronglySorted Z.lt (l ++ [x]).
Proof.
  induction l as [|a l IH]; intros S Hlt; simpl.
  - repeat constructor.
  - apply StronglySorted_inv in S as [S Ha]. constructor.
    + apply IH; auto. intros y Hy. apply Hlt. right. exact Hy.
    + rewrite List.Forall_forall in *. intros y [Hy|[<-|[]]]%in_app_iff; auto.
      apply Hlt. left. reflexivity.
Qed.

Lemma StronglySorted_remove_middle (l1 l2 : list Z) (x : Z) :
  StronglySorted Z.lt (l1 ++ x :: l2) -> StronglySorted Z.lt (l1 ++ l2).
Proof.
  induction l1 as [|a l1 IH]; simpl; intros S.
  - apply StronglySorted_inv in S as [S _]. exact S.
  - apply StronglySorted_inv in S as [S Ha]. constructor; [auto|].
    rewrite List.Forall_forall in *. intros y Hy. apply Ha.
    apply in_app_iff in Hy as [Hy|Hy]; apply in_app_iff; [left|right; right]; auto.
Qed.

Lemma handle_sorted s r s' resp :
  store_inv s -> StronglySorted Z.lt (ids s) -> (forall i, In i (ids s) -> 1 <= i) ->
  1 <= nextId s ->
  handle s r = (s', resp) ->
  StronglySorted Z.lt (ids s') /\ (forall i, In i (ids s') -> 1 <= i) /\ 1 <= nextId s'.
Proof.
  intros Inv S Pos Hn H. pose proof Inv as (ND & Lt & Eq).
  assert (Same : StronglySorted Z.lt (ids s) /\ (forall i, In i (ids s) -> 1 <= i)
                 /\ 1 <= nextId s) by auto.
  destruct r as [|now1 now2 b|now idp b|idp]; simpl in H.
  - injection H as <- <-. exact Same.
  - apply POST_cases in H as [(-> & _)|[(-> & _)|(n & d & p & i & _ & _ & ->)]]; auto.
    unfold ids. simpl. rewrite map_app. simpl. split; [|split; [|lia]].
    + apply StronglySorted_snoc; auto.
    + intros x [Hx|[<-|[]]]%in_app_iff; auto.
  - unfold PUT in H. destruct (parseInt idp) as [id|]; [|injection H as <- <-; exact Same].
    apply PUT_with_id_cases in H
      as [(-> & _)|[(-> & _)|[(-> & _)
          |(n & d & p & i & k & old & _ & Hk & _ & _ & _ & ->)]]]; auto.
    unfold ids. simpl. erewrite ids_insert_same; eauto.
  - unfold DELETE in H. destruct (parseInt idp) as [id|]; [|injection H as <- <-; exact Same].
    apply DELETE_with_id_cases in H as [(-> & _)|(k & x & Hk & _ & _ & _ & ->)]; auto.
    destruct (lookup_split _ _ _ Hk) as [E1 E2].
    unfold ids in *. simpl. rewrite E2, map_app. rewrite E1, map_app in S, Pos. simpl in S, Pos.
    split; [eapply StronglySorted_remove_middle; eauto|]. split; [|exact Hn].
    intros y Hy. apply Pos.
    apply in_app_iff in Hy as [Hy|Hy]; apply in_app_iff; [left|right; right]; auto.
Qed.

Lemma serve_sorted rs : forall s s' resps,
  store_inv s -> StronglySorted Z.lt (ids s) -> (forall i, In i (ids s) -> 1 <= i) ->
  1 <= nextId s ->
  serve s rs = (s', resps) ->
  StronglySorted Z.lt (ids s') /\ (forall i, In i (ids s') -> 1 <= i).
Proof.
  induction rs as [|r rs IH]; intros s s' resps Inv S Pos Hn H.
  - injection H as <- <-. auto.
  - rewrite serve_cons in H.
    destruct (handle s r) as [s1 resp] eqn:Hr. simpl in H.
    destruct (serve s1 rs) as [s2 resps2] eqn:Hs. simpl in H.
    injection H as <- <-.
    destruct (handle_step _ _ _ _ Inv Hr) as (Inv1 & _).
    destruct (handle_sorted _ _ _ _ Inv S Pos Hn Hr) as (S1 & Pos1 & Hn1).
    eapply IH; eauto.
Qed.

(** X2. In every store the process reaches, [GET] sends the array of the
    store itself, and that array is in strictly increasing order of id
    (insertion order is id order), its ids at least 1 and below the
    counter. *)
Theorem list_is_in_id_order :
  forall c1 c2 c3 c4 rs s resps,
    serve (initial_store c1 c2 c3 c4) rs = (s, resps) ->
    GET s = (s, {| status := 200; body := JsonProducts (globalProducts s) |})
    /\ StronglySorted Z.lt (map Product.id (globalProducts s))
    /\ (forall i, In i (map Product.id (globalProducts s)) -> 1 <= i < nextId s).
Proof.
  intros c1 c2 c3 c4 rs s resps H.
  pose proof (initial_store_inv c1 c2 c3 c4) as Inv0.
  destruct (serve_inv _ _ _ _ Inv0 H) as ((_ & Lt & _) & _).
  assert (S0 : StronglySorted Z.lt (ids (initial_store c1 c2 c3 c4)))
    by (simpl; repeat constructor; lia).
  assert (P0 : forall i, In i (ids (initial_store c1 c2 c3 c4)) -> 1 <= i)
    by (simpl; intros i [<-|[<-|[]]]; lia).
  assert (N0 : 1 <= nextId (initial_store c1 c2 c3 c4)) by (simpl; lia).
  destruct (serve_sorted rs _ _ _ Inv0 S0 P0 N0 H) as (S & Pos).
  split; [reflexivity|]. split; [exact S|].
  intros i Hi. split; [apply Pos|apply Lt]; exact Hi.
Qed.

(** ** Stored records pass validation *)

Lemma image_or_undefined_cases i :
  image_or_undefined i = JUndefined \/ ToBoolean (image_or_undefined i) = true.
Proof.
  unfold image_or_undefined. destruct (ToBoolean i) eqn:Ti; [right; exact Ti|left; reflexivity].
Qed.

Lemma validated_product_passes request n d p i id c u :
  validate request = Normal (Accepted n d p i) ->
  passes_validation (Product.mk id n d p (image_or_undefined i) c u).
Proof.
  intros V. apply validate_inv in V as (b & _ & _ & _ & _ & _ & Tn & Td & Vp & Ln & Ld).
  unfold passes_validation. simpl. do 5 (split; [assumption|]).
  apply image_or_undefined_cases.
Qed.

Lemma handle_passes s r s' resp :
  Forall passes_validation (globalProducts s) ->
  handle s r = (s', resp) ->
  Forall passes_validation (globalProducts s').
Proof.
  intros F H. destruct r as [|now1 now2 b|now idp b|idp]; simpl in H.
  - injection H as <- <-. exact F.
  - apply POST_cases in H as [(-> & _)|[(-> & _)|(n & d & p & i & V & _ & ->)]]; auto.
    simpl. apply Forall_app. split; [exact F|]. constructor; [|constructor].
    eapply validated_product_passes; eauto.
  - unfold PUT in H. destruct (parseInt idp) as [id|]; [|injection H as <- <-; exact F].
    apply PUT_with_id_cases in H
      as [(-> & _)|[(-> & _)|[(-> & _)
          |(n & d & p & i & k & old & V & Hk & _ & _ & _ & ->)]]]; auto.
    simpl. apply Forall_insert; [exact F|]. eapply validated_product_passes; eauto.
  - unfold DELETE in H. destruct (parseInt idp) as [id|]; [|injection H as <- <-; exact F].
    apply DELETE_with_id_cases in H as [(-> & _)|(k & x & Hk & _ & _ & _ & ->)]; auto.
    simpl. apply Forall_delete. exact F.
Qed.

Lemma serve_passes rs : forall s s' resps,
  Forall passes_validation (globalProducts s) ->
  serve s rs = (s', resps) ->
  Forall passes_validation (globalProducts s').
Proof.
  induction rs as [|r rs IH]; intros s s' resps F H.
  - injection H as <- <-. exact F.
  - rewrite serve_cons in H.
    destruct (handle s r) as [s1 resp] eqn:Hr. simpl in H.
    destruct (serve s1 rs) as [s2 resps2] eqn:Hs. simpl in H.
    injection H as <- <-. eapply IH; [|exact Hs]. eapply handle_passes; eauto.
Qed.

(** X3. Every record in every store the process reaches, the seeds
    included, is one the validation block lets in: its name and description
    are truthy with a [length] within 100 and 500, its price is a number
    above 0, and its image is unset or truthy (never an empty string or
    [null]). *)
Theorem stored_products_pass_validation :
  forall c1 c2 c3 c4 rs s resps p,
    serve (initial_store c1 c2 c3 c4) rs = (s, resps) ->
    In p (globalProducts s) ->
    passes_validation p.
Proof.
  intros c1 c2 c3 c4 rs s resps p H Hp.
  assert (F0 : Forall passes_validation (globalProducts (initial_store c1 c2 c3 c4))).
  { simpl. repeat constructor; simpl; try reflexivity;
      try (eexists; split; reflexivity); right; reflexivity. }
  pose proof (serve_passes _ _ _ _ F0 H) as F.
  rewrite List.Forall_forall in F. apply F. exact Hp.
Qed.

(** ** Refusals write nothing *)

(** X4. A request that is answered with a status from 400 to 499 (400 from
    the validation block or for a path with no id to read, 404 from the
    lookup), by whichever handler, leaves the array and both counters exactly
    as they were, and its body is an error object. *)
Theorem refused_requests_leave_the_store :
  forall s r s' resp,
    handle s r = (s', resp) ->
    400 <= status resp < 500 ->
    s' = s /\ exists msg, body resp = JsonError msg.
Proof.
  intros s r s' resp H St. destruct r as [|now1 now2 b|now idp b|idp]; simpl in H.
  - injection H as <- <-. simpl in St. lia.
  - apply POST_cases in H as [(-> & V)|[(-> & _ & ->)|(n & d & p & i & _ & -> & ->)]].
    + apply validate_Rejected in V as [_ M]. auto.
    + simpl in St. lia.
    + simpl in St. lia.
  - unfold PUT in H. destruct (parseInt idp) as [id|].
    + apply PUT_with_id_cases in H
        as [(-> & V)|[(-> & _ & ->)|[(-> & _ & _ & ->)
            |(n & d & p & i & k & old & _ & _ & _ & _ & -> & ->)]]].
      * apply validate_Rejected in V as [_ M]. auto.
      * simpl in St. lia.
      * split; [reflexivity|]. eexists. reflexivity.
      * simpl in St. lia.
    + injection H as <- <-. split; [reflexivity|]. eexists. reflexivity.
  - unfold DELETE in H. destruct (parseInt idp) as [id|].
    + apply DELETE_with_id_cases in H as [(-> & _ & ->)|(k & x & _ & _ & _ & -> & ->)].
      * split; [reflexivity|]. eexists. reflexivity.
      * simpl in St. lia.
    + injection H as <- <-. split; [reflexivity|]. eexists. reflexivity.
Qed.

(** ** Create, then Delete what was created *)

Lemma findIndex_last {A} (f : A -> bool) (l : list A) (x : A) :
  (forall y, In y l -> f y = false) -> f x = true ->
  findIndex f (l ++ [x]) = Some (length l, x).
Proof.
  induction l as [|a l IH]; intros Hl Hx; simpl.
  - rewrite Hx. reflexivity.
  - rewrite (Hl a) by (left; reflexivity).
    rewrite IH; auto. intros y Hy. apply Hl. right. exact Hy.
Qed.

(** X5. In a store the process reaches, deleting the product a Create has
    just returned gives back that product and restores the array exactly as
    it was before the Create; only the counter stays advanced, so the id is
    not handed out again. *)
Theorem create_then_delete_restores_list :
  forall c1 c2 c3 c4 rs s resps now1 now2 request s1 p idParam,
    serve (initial_store c1 c2 c3 c4) rs = (s, resps) ->
    POST s now1 now2 request = (s1, {| status := 201; body := JsonProduct p |}) ->
    parseInt idParam = Some (Product.id p) ->
    exists s2,
      DELETE s1 idParam
      = (s2, {| status := 200; body := JsonDeleted "Product deleted successfully" p |})
      /\ globalProducts s2 = globalProducts s
      /\ nextId s2 = nextId s + 1 /\ nextProductId s2 = nextId s + 1.
Proof.
  intros c1 c2 c3 c4 rs s resps now1 now2 request s1 p idParam H HP Hid.
  destruct (serve_inv _ _ _ _ (initial_store_inv c1 c2 c3 c4) H) as ((_ & Lt & _) & _).
  apply POST_cases in HP as [(_ & V)|[(_ & _ & E)|(n & d & pr & i & _ & E & ->)]].
  - apply validate_Rejected in V as [V _]. simpl in V. discriminate.
  - discriminate.
  - injection E as ->. unfold DELETE, DELETE_with_id. rewrite Hid. simpl.
    rewrite findIndex_last.
    + eexists. split; [reflexivity|]. simpl.
      rewrite (delete_middle (globalProducts s) []), app_nil_r. auto.
    + intros y Hy. apply Z.eqb_neq. intros E.
      assert (Hin : In (Product.id y) (ids s)) by (apply in_map; exact Hy).
      apply Lt in Hin. lia.
    + simpl. apply Z.eqb_refl.
Qed.

(** ** Updates compose *)

(** Rewriting a record by one of the same id does not move what [findIndex]
    finds for a test on the id. *)
Lemma findIndex_insert_same_id (l : list Product.t) (j : Z) (k : nat) old new :
  l !! k = Some old -> Product.id new = Product.id old ->
  findIndex (fun p => Product.id p =? j) (<[k := new]> l)
  = match findIndex (fun p => Product.id p =? j) l with
    | Some (i, x) => Some (i, if Nat.eqb i k then new else x)
    | None => None
    end.
Proof.
  revert k. induction l as [|a l IH]; intros k Hk Hid; [discriminate|].
  destruct k as [|k]; simpl in *.
  - injection Hk as ->. rewrite Hid.
    destruct (Product.id old =? j); [reflexivity|].
    destruct (findIndex _ l) as [[i x]|]; reflexivity.
  - destruct (Product.id a =? j); [reflexivity|].
    rewrite (IH k Hk Hid).
    destruct (findIndex _ l) as [[i x]|]; reflexivity.
Qed.

(** X6. An Update with a valid body overwrites whatever an Update of the
    same id did just before: store and response after the two are those of
    the second Update applied alone, with the [createdAt] of the original
    record. *)
Theorem update_overwrites_previous_update :
  forall s now1 now2 idParam request1 request2,
    valid_body request2 ->
    PUT (fst (PUT s now1 idParam request1)) now2 idParam request2
    = PUT s now2 idParam request2.
Proof.
  intros s now1 now2 idParam request1 request2 (n2 & d2 & p2 & i2 & V2).
  destruct (PUT s now1 idParam request1) as [s1 r1] eqn:H1. simpl.
  unfold PUT in *. destruct (parseInt idParam) as [id|];
    [|injection H1 as <- <-; reflexivity].
  apply PUT_with_id_cases in H1
    as [(-> & _)|[(-> & _)|[(-> & _)
        |(n & d & p & i & k & old & _ & Hk & Hid & Hfirst & _ & ->)]]]; auto.
  unfold PUT_with_id. rewrite V2. simpl.
  rewrite (findIndex_insert_same_id _ id k old) by (auto; reflexivity).
  destruct (findIndex _ (globalProducts s)) as [[i0 x]|] eqn:F.
  2: { exfalso. apply findIndex_id_None in F. apply F. apply in_map_iff.
       exists old. split; [exact Hid|].
       apply list_elem_of_In. eapply list_elem_of_lookup_2; eauto. }
  destruct (findIndex_Some _ _ _ _ F) as (Hx & Fx & Hlt). simpl in Fx.
  assert (i0 = k) as ->.
  { destruct (Nat.lt_trichotomy i0 k) as [Hl|[E|Hg]]; auto.
    - exfalso. apply (Hfirst i0 x Hl Hx). lia.
    - exfalso. specialize (Hlt k old Hg Hk). simpl in Hlt. lia. }
  rewrite Nat.eqb_refl. rewrite Hx in Hk. injection Hk as ->. simpl.
  rewrite list_insert_insert_eq. reflexivity.
Qed.

Lemma PUT_with_id_Accepted s now id request n d p i :
  validate request = Normal (Accepted n d p i) ->
  PUT_with_id s now id request
  = match findIndex (fun q => Product.id q =? id) (globalProducts s) with
    | None => (s, not_found)
    | Some (k, old) =>
        ({| globalProducts :=
              <[k := Product.mk (Product.id old) n d p (image_or_undefined i)
                       (Product.createdAt old) now]> (globalProducts s);
            nextProductId := nextProductId s;
            nextId := nextId s |},
         {| status := 200;
            body := JsonProduct
              (Product.mk (Product.id old) n d p (image_or_undefined i)
                 (Product.createdAt old) now) |})
    end.
Proof.
  intros V. unfold PUT_with_id. rewrite V.
  destruct (findIndex _ _) as [[k old]|]; reflexivity.
Qed.

Lemma PUT_with_id_not_Accepted now id request :
  (forall n d p i, validate request <> Normal (Accepted n d p i)) ->
  exists r, forall s0, PUT_with_id s0 now id request = (s0, r).
Proof.
  intros H. unfold PUT_with_id.
  destruct (validate request) as [[n d p i|r]|].
  - exfalso. eapply H. reflexivity.
  - exists r. reflexivity.
  - eexists. reflexivity.
Qed.

(** Rewriting a record of another id does not change what [findIndex]
    finds. *)
Lemma findIndex_insert_other_id (l : list Product.t) ida idb k old new :
  ida <> idb -> l !! k = Some old -> Product.id old = ida -> Product.id new = ida ->
  findIndex (fun q => Product.id q =? idb) (<[k := new]> l)
  = findIndex (fun q => Product.id q =? idb) l.
Proof.
  intros Hd Hk Ho Hn.
  rewrite (findIndex_insert_same_id _ idb k old new Hk) by congruence.
  destruct (findIndex _ l) as [[i x]|] eqn:F; [|reflexivity].
  destruct (findIndex_Some _ _ _ _ F) as (Hx & Fx & _). simpl in Fx.
  destruct (Nat.eqb_spec i k) as [->|]; [|reflexivity].
  rewrite Hx in Hk. injection Hk as ->. lia.
Qed.

(** An Update of another id does not change what an Update answers, and
    the two can be swapped. *)
Lemma PUT_with_id_after_other s now1 now2 id1 id2 request1 request2 :
  id1 <> id2 ->
  snd (PUT_with_id (fst (PUT_with_id s now1 id1 request1)) now2 id2 request2)
  = snd (PUT_with_id s now2 id2 request2)
  /\ fst (PUT_with_id (fst (PUT_with_id s now1 id1 request1)) now2 id2 request2)
     = fst (PUT_with_id (fst (PUT_with_id s now2 id2 request2)) now1 id1 request1).
Proof.
  intros Hne.
  destruct (validate request1) as [[n1 d1 p1 i1|r1]|] eqn:V1.
  2,3: destruct (PUT_with_id_not_Accepted now1 id1 request1) as (r & Hr);
       [intros; rewrite V1; discriminate|]; rewrite !Hr; simpl; auto.
  destruct (validate request2) as [[n2 d2 p2 i2|r2]|] eqn:V2.
  2,3: destruct (PUT_with_id_not_Accepted now2 id2 request2) as (r & Hr);
       [intros; rewrite V2; discriminate|]; rewrite !Hr; simpl; auto.
  rewrite (PUT_with_id_Accepted s _ _ _ _ _ _ _ V1).
  rewrite (PUT_with_id_Accepted s _ _ _ _ _ _ _ V2).
  destruct (findIndex (fun q => Product.id q =? id1) (globalProducts s))
    as [[k1 o1]|] eqn:F1;
    destruct (findIndex (fun q => Product.id q =? id2) (globalProducts s))
      as [[k2 o2]|] eqn:F2; simpl fst;
    rewrite (PUT_with_id_Accepted _ _ _ _ _ _ _ _ V1);
    rewrite (PUT_with_id_Accepted _ _ _ _ _ _ _ _ V2); simpl globalProducts;
    try (destruct (findIndex_Some _ _ _ _ F1) as (Hk1 & E1 & _); simpl in E1);
    try (destruct (findIndex_Some _ _ _ _ F2) as (Hk2 & E2 & _); simpl in E2).
  - rewrite (findIndex_insert_other_id _ id1 id2 k1 o1) by (auto; simpl; lia).
    rewrite (findIndex_insert_other_id _ id2 id1 k2 o2) by (auto; simpl; lia).
    rewrite F1, F2. simpl. split; [reflexivity|].
    f_equal. apply list_insert_insert_ne. intros ->.
    rewrite Hk1 in Hk2. injection Hk2 as ->. lia.
  - rewrite (findIndex_insert_other_id _ id1 id2 k1 o1) by (auto; simpl; lia).
    rewrite F1, F2. simpl. auto.
  - rewrite (findIndex_insert_other_id _ id2 id1 k2 o2) by (auto; simpl; lia).
    rewrite F1, F2. simpl. auto.
  - rewrite F1, F2. simpl. auto.
Qed.

(** X7. Two Updates of different ids do not disturb each other: each
    answers what it would answer alone, and the store after both is the same
    in either order (no update is lost). *)
Theorem updates_of_different_ids_commute :
  forall s now1 now2 idParam1 idParam2 id1 id2 request1 request2,
    parseInt idParam1 = Some id1 ->
    parseInt idParam2 = Some id2 ->
    id1 <> id2 ->
    snd (PUT (fst (PUT s now1 idParam1 request1)) now2 idParam2 request2)
    = snd (PUT s now2 idParam2 request2)
    /\ snd (PUT (fst (PUT s now2 idParam2 request2)) now1 idParam1 request1)
       = snd (PUT s now1 idParam1 request1)
    /\ fst (PUT (fst (PUT s now1 idParam1 request1)) now2 idParam2 request2)
       = fst (PUT (fst (PUT s now2 idParam2 request2)) now1 idParam1 request1).
Proof.
  intros s now1 now2 idParam1 idParam2 id1 id2 request1 request2 H1 H2 Hne.
  unfold PUT. rewrite H1, H2.
  destruct (PUT_with_id_after_other s now1 now2 id1 id2 request1 request2 Hne) as [A B].
  destruct (PUT_with_id_after_other s now2 now1 id2 id1 request2 request1) as [C _]; auto.
Qed.

(** ** Which error comes first *)

(** X8. The validation block reports one error, in a fixed order. A name,
    description or price that is falsy (absent, [null], [""], [0], [NaN],
    [false]) gives "Name, description, and price are required" whatever the
    other fields are; otherwise a price that is not a number above 0 gives
    "Price must be a positive number" whatever the lengths are; otherwise a
    name whose [length] is above 100 gives the message about the name
    whatever the description is. [POST] and [PUT] (before it looks the id up)
    answer 400 with that message and leave the store. *)
Theorem validation_reports_first_failure :
  forall s now1 now2 now idParam id b n d price image,
    Get b (lit "name") = Normal n ->
    Get b (lit "description") = Normal d ->
    Get b (lit "price") = Normal price ->
    Get b (lit "image") = Normal image ->
    parseInt idParam = Some id ->
    (ToBoolean n && ToBoolean d && ToBoolean price = false ->
       POST s now1 now2 (Some b)
       = (s, error_response 400 "Name, description, and price are required")
       /\ PUT s now idParam (Some b)
          = (s, error_response 400 "Name, description, and price are required"))
    /\ (ToBoolean n && ToBoolean d = true -> ToBoolean price = true ->
        valid_price price = false ->
          POST s now1 now2 (Some b)
          = (s, error_response 400 "Price must be a positive number")
          /\ PUT s now idParam (Some b)
             = (s, error_response 400 "Price must be a positive number"))
    /\ (ToBoolean n && ToBoolean d = true -> valid_price price = true ->
        (exists len, GetLength n = Normal len
                     /\ GreaterThan len 100%float = Normal true) ->
          POST s now1 now2 (Some b)
          = (s, error_response 400 "Name must be 100 characters or less")
          /\ PUT s now idParam (Some b)
             = (s, error_response 400 "Name must be 100 characters or less")).
Proof.
  intros s now1 now2 now idParam id b n d price image Hn Hd Hp Hi Hid.
  assert (Both : forall r, validate (Some b) = Normal (Rejected r) ->
            POST s now1 now2 (Some b) = (s, r) /\ PUT s now idParam (Some b) = (s, r)).
  { intros r V. split; [apply POST_Rejected|eapply PUT_Rejected]; eauto. }
  split; [|split].
  - intros F. apply Both. unfold validate. rewrite Hn, Hd, Hp, Hi. simpl.
    destruct (ToBoolean n), (ToBoolean d), (ToBoolean price); try discriminate; reflexivity.
  - intros T Tp Vp. apply Both. unfold validate. rewrite Hn, Hd, Hp, Hi. simpl.
    apply andb_true_iff in T as [-> ->]. rewrite Tp. simpl.
    unfold valid_price in Vp. rewrite Tp in Vp. simpl in Vp.
    destruct (is_number price); simpl in *; [|reflexivity].
    destruct (LessEqualZero price); simpl in *; [reflexivity|discriminate].
  - intros T Vp (len & Ln & Gn). apply Both. unfold validate. rewrite Hn, Hd, Hp, Hi. simpl.
    apply andb_true_iff in T as [-> ->].
    unfold valid_price in Vp.
    apply andb_true_iff in Vp as [Vp Le]. apply andb_true_iff in Vp as [-> ->].
    apply negb_true_iff in Le. rewrite Le. simpl. rewrite Ln. simpl. rewrite Gn. reflexivity.
Qed.

(** ** Bodies that are not objects *)

(** X9. A body that [request.json()] cannot parse, and the JSON body
    [null], end in the [catch] clause: 500 "Failed to create product" from
    [POST], 500 "Failed to update product" from [PUT]. A body that is a
    boolean, a number, a string or an array has none of the fields and
    answers 400 "Name, description, and price are required". The store is
    left in every case. *)
Theorem bodies_that_are_not_objects :
  forall s now1 now2 now idParam id request,
    parseInt idParam = Some id ->
    (request = None \/ request = Some JNull ->
       POST s now1 now2 request = (s, error_response 500 "Failed to create product")
       /\ PUT s now idParam request = (s, error_response 500 "Failed to update product"))
    /\ (forall b, request = Some b ->
          match b with
          | JBool _ | JNumber _ | JString _ | JArray _ => True
          | _ => False
          end ->
          POST s now1 now2 request
          = (s, error_response 400 "Name, description, and price are required")
          /\ PUT s now idParam request
             = (s, error_response 400 "Name, description, and price are required")).
Proof.
  intros s now1 now2 now idParam id request Hid. unfold PUT. rewrite Hid. split.
  - intros [->| ->]; split; reflexivity.
  - intros b -> Hb. destruct b; try contradiction; split; reflexivity.
Qed.

(** ** Any number of Creates in flight *)

Lemma serve_length rs : forall s, length (snd (serve s rs)) = length rs.
Proof.
  induction rs as [|r rs IH]; intros s; [reflexivity|].
  rewrite serve_cons. simpl. rewrite IH. reflexivity.
Qed.

Lemma serve_creates rs : forall s s' resps,
  Forall valid_create rs ->
  serve s rs = (s', resps) ->
  nextId s' = nextId s + Z.of_nat (length rs)
  /\ forall k r, resps !! k = Some r ->
       exists p, r = {| status := 201; body := JsonProduct p |}
                 /\ Product.id p = nextId s + Z.of_nat k.
Proof.
  induction rs as [|r rs IH]; intros s s' resps F H.
  - injection H as <- <-. split; [simpl; lia|]. intros k r Hk. discriminate.
  - apply Forall_cons in F as [(n1 & n2 & b & -> & (n & d & p & i & V)) F].
    rewrite serve_cons in H. simpl handle in H.
    rewrite (POST_valid _ _ _ _ _ _ _ _ V) in H. simpl in H.
    destruct (serve _ rs) as [s2 resps2] eqn:Hs. simpl in H. injection H as <- <-.
    destruct (IH _ _ _ F Hs) as (Cnt & Ids). simpl in Cnt. split.
    + rewrite Cnt. simpl length. lia.
    + intros [|k] r Hk; simpl in Hk.
      * injection Hk as <-. eexists. split; [reflexivity|]. simpl. lia.
      * destruct (Ids k r Hk) as (q & -> & Hq). exists q. split; [reflexivity|].
        rewrite Hq. simpl. lia.
Qed.

Lemma in_order_Forall (P : Request -> Prop) order reqs :
  Forall P reqs -> Forall P (in_order order reqs).
Proof.
  intros F. unfold in_order. induction order as [|i order IH]; simpl; [constructor|].
  apply Forall_app. split; [|exact IH].
  destruct (reqs !! i) as [r|] eqn:Hi; [|constructor].
  constructor; [|constructor]. rewrite List.Forall_forall in F. apply F.
  apply list_elem_of_In. eapply list_elem_of_lookup_2; eauto.
Qed.

Lemma in_order_length order (reqs : list Request) :
  (forall i, In i order -> (i < length reqs)%nat) ->
  length (in_order order reqs) = length order.
Proof.
  unfold in_order. induction order as [|i order IH]; intros H; simpl; [reflexivity|].
  rewrite length_app, IH by (intros j Hj; apply H; right; exact Hj).
  destruct (lookup_lt_is_Some_2 reqs i) as [r Hr]; [apply H; left; reflexivity|].
  rewrite Hr. reflexivity.
Qed.

(** X10. Any number of Creates in flight with valid bodies, resumed in any
    order: when all have returned, each has a 201 with an id between the
    counter before and the counter before plus their number, no two have
    the same id, and the counter has advanced by their number. So N Creates
    get exactly the N ids [nextId], ..., [nextId + N - 1]. *)
Theorem creates_in_flight_get_consecutive_ids :
  forall s reqs schedule s' pool',
    Forall valid_create reqs ->
    run_schedule schedule (s, map task_of reqs) = Some (s', pool') ->
    Forall returned pool' ->
    nextId s' = nextId s + Z.of_nat (length reqs)
    /\ (forall i r, pool' !! i = Some (Done r) ->
          exists p, r = {| status := 201; body := JsonProduct p |}
                    /\ nextId s <= Product.id p < nextId s + Z.of_nat (length reqs))
    /\ (forall i j pi pj,
          i <> j ->
          pool' !! i = Some (Done {| status := 201; body := JsonProduct pi |}) ->
          pool' !! j = Some (Done {| status := 201; body := JsonProduct pj |}) ->
          Product.id pi <> Product.id pj).
Proof.
  intros s reqs schedule s' pool' F H Hall.
  destruct (serializable _ _ _ _ _ H Hall) as (order & resps & Perm & Hserve & Hdone).
  assert (Hin : forall i, In i order <-> (i < length reqs)%nat).
  { intros i. rewrite (Permutation_in' (eq_refl i) Perm), in_seq. lia. }
  assert (Hlen : length (in_order order reqs) = length reqs).
  { rewrite in_order_length by (intros i Hi; apply Hin; exact Hi).
    rewrite (Permutation_length Perm). apply length_seq. }
  destruct (serve_creates _ _ _ _ (in_order_Forall _ order _ F) Hserve) as (Cnt & Ids).
  rewrite Hlen in Cnt.
  assert (Hpos : forall i r, pool' !! i = Some (Done r) ->
            exists k, order !! k = Some i /\ resps !! k = Some r).
  { intros i r Hi.
    assert (Hi' : In i order).
    { apply Hin.
      destruct (serial_view_run _ _ _ _ _ _ (serial_view_start s reqs) H)
        as (order0 & (Hl & _)). simpl in Hl. rewrite <- Hl.
      eapply lookup_lt_Some; eauto. }
    apply list_elem_of_In, list_elem_of_lookup in Hi' as [k Hk].
    destruct (Forall2_lookup_l _ _ _ _ _ Hdone Hk) as (r' & Hr' & E).
    rewrite Hi in E. injection E as ->. eauto. }
  assert (Hk_lt : forall k r, resps !! k = Some r -> (k < length reqs)%nat).
  { intros k r Hk. apply lookup_lt_Some in Hk.
    pose proof (serve_length (in_order order reqs) s) as L.
    rewrite Hserve in L. simpl in L. lia. }
  split; [exact Cnt|]. split.
  - intros i r Hi. destruct (Hpos i r Hi) as (k & _ & Hr).
    destruct (Ids k r Hr) as (p & -> & Hp). exists p. split; [reflexivity|].
    apply Hk_lt in Hr. lia.
  - intros i j pi pj Hne Hi Hj E.
    destruct (Hpos _ _ Hi) as (ki & Hoi & Hri). destruct (Hpos _ _ Hj) as (kj & Hoj & Hrj).
    destruct (Ids _ _ Hri) as (qi & [= <-] & Hqi).
    destruct (Ids _ _ Hrj) as (qj & [= <-] & Hqj).
    assert (ki = kj) as -> by lia.
    rewrite Hoi in Hoj. injection Hoj as ->. contradiction.
Qed.

(** ** [parseInt] on the ids the page sends *)

Lemma parse_digits_stop radix c rest : forall s acc,
  digit_value radix c = None ->
  parse_digits radix acc (s ++ c :: rest) = parse_digits radix acc s.
Proof.
  intros s acc Hc. revert acc. induction s as [|a s IH]; intros acc; simpl.
  - rewrite Hc. reflexivity.
  - destruct (digit_value radix a); [apply IH|reflexivity].
Qed.

Lemma parse_digits_acc u : forall acc,
  parse_digits 10 (Some (Zpos acc)) (digits u) = Some (Zpos (Pos.of_uint_acc u acc)).
Proof.
  induction u; intros acc; simpl; try reflexivity;
    (rewrite <- IHu; f_equal; f_equal; lia).
Qed.

Lemma parse_digits_zero u :
  parse_digits 10 (Some 0) (digits u) = Some (Z.of_N (Pos.of_uint u)).
Proof.
  induction u; simpl; try reflexivity; try exact IHu; apply parse_digits_acc.
Qed.

Lemma parse_digits_none u :
  u <> Decimal.Nil ->
  parse_digits 10 None (digits u) = Some (Z.of_N (Pos.of_uint u)).
Proof.
  destruct u; intros H; simpl; try contradiction;
    first [apply parse_digits_zero | apply parse_digits_acc].
Qed.

(** A run of digits, alone or followed by a code unit that is no digit, is
    read as the number it writes; after a lone [0] that code unit must not
    be [x] or [X], which would open a hexadecimal literal. *)
Lemma parse_unsigned_digits u junk :
  u <> Decimal.Nil ->
  junk = [] \/ (exists c rest, junk = c :: rest /\ digit_value 10 c = None
                /\ (u = Decimal.D0 Decimal.Nil -> c <> 120%N /\ c <> 88%N)) ->
  parse_unsigned (digits u ++ junk) = Some (Z.of_N (Pos.of_uint u)).
Proof.
  intros Hu Hj.
  assert (Hd : parse_digits 10 None (digits u ++ junk) = Some (Z.of_N (Pos.of_uint u))).
  { destruct Hj as [->|(c & rest & -> & Hc & _)].
    - rewrite app_nil_r. apply parse_digits_none. exact Hu.
    - rewrite parse_digits_stop by exact Hc. apply parse_digits_none. exact Hu. }
  unfold parse_unsigned.
  destruct u as [|u|u|u|u|u|u|u|u|u|u]; try contradiction;
    try (destruct (digits u ++ junk) eqn:E; simpl in *; rewrite ?E; simpl;
         rewrite ?E in Hd; exact Hd).
  (* the first digit is 0 *)
  destruct u as [|u|u|u|u|u|u|u|u|u|u]; try exact Hd.
  destruct Hj as [->|(c & rest & -> & Hc & Hx)]; [exact Hd|].
  destruct (Hx eq_refl) as [H1 H2]. simpl app.
  cbv beta iota. replace (N.eqb 48 48) with true by reflexivity. simpl andb.
  apply N.eqb_neq in H1, H2. rewrite H1, H2. exact Hd.
Qed.

Lemma parseInt_digits u junk :
  u <> Decimal.Nil ->
  junk = [] \/ (exists c rest, junk = c :: rest /\ digit_value 10 c = None
                /\ (u = Decimal.D0 Decimal.Nil -> c <> 120%N /\ c <> 88%N)) ->
  parseInt (digits u ++ junk) = Some (Z.of_N (Pos.of_uint u))
  /\ parseInt (45%N :: digits u ++ junk) = Some (- Z.of_N (Pos.of_uint u)).
Proof.
  intros Hu Hj. pose proof (parse_unsigned_digits u junk Hu Hj) as P.
  unfold parse_unsigned in P. unfold parseInt.
  assert (Hhead : exists c ds, digits u = c :: ds /\ is_white_space c = false
                               /\ N.eqb c 45 = false /\ N.eqb c 43 = false).
  { destruct u; try contradiction; simpl; eexists; eexists; repeat split; reflexivity. }
  destruct Hhead as (c & ds & E & W & S1 & S2). rewrite E in *. split.
  - simpl skip_white_space. rewrite W. cbv beta iota. rewrite S1, S2.
    simpl app in P |- *.
    destruct (match _ with [] => _ | _ => _ end) as [radix s0] in P |- *.
    rewrite P. f_equal; lia.
  - simpl skip_white_space. replace (is_white_space 45) with false by reflexivity.
    cbv beta iota. replace (N.eqb 45 45) with true by reflexivity.
    simpl app in P |- *.
    destruct (match _ with [] => _ | _ => _ end) as [radix s0] in P |- *.
    rewrite P. f_equal; lia.
Qed.

(** X11. An integer id up to 2^53 in absolute value, written into the
    request path as the page writes it, is read back by [parseInt] as the
    same id, 0 and negative ids included: the [PUT] and [DELETE] that the
    page sends for a listed product reach the lookup with that product's id.
    (Beyond 2^53 the language rounds what [parseInt] reads, and from 10^21 it
    prints an exponent; nothing is stated there.) *)
Theorem parseInt_reads_back_decimal :
  forall id s now request,
    - 9007199254740992 <= id <= 9007199254740992 ->
    parseInt (decimal id) = Some id
    /\ DELETE s (decimal id) = DELETE_with_id s id
    /\ PUT s now (decimal id) request = PUT_with_id s now id request.
Proof.
  intros id s now request _.
  assert (P : parseInt (decimal id) = Some id).
  { destruct id as [|p|p]; [reflexivity| |].
    - unfold decimal. rewrite <- (app_nil_r (digits _)).
      rewrite (proj1 (parseInt_digits _ [] (Unsigned.to_uint_nonnil p) (or_introl eq_refl))).
      rewrite DecimalPos.Unsigned.of_to. reflexivity.
    - unfold decimal. rewrite <- (app_nil_r (digits _)).
      rewrite (proj2 (parseInt_digits _ [] (Unsigned.to_uint_nonnil p) (or_introl eq_refl))).
      rewrite DecimalPos.Unsigned.of_to. reflexivity. }
  split; [exact P|]. unfold DELETE, PUT. rewrite P. split; reflexivity.
Qed.

(** X12. [parseInt] ignores whatever follows the digits: the decimal
    writing of an id from 0 to 2^53, followed by any code unit that is not a
    decimal digit and then by anything, is read as that id. The one
    exception is [x] or [X] right after a lone [0], which starts a
    hexadecimal literal. So [/api/Product/7abc] and [/api/Product/7.9]
    both address product 7. (Beyond 2^53 the language rounds what [parseInt]
    reads; nothing is stated there.) *)
Theorem parseInt_ignores_what_follows_the_digits :
  forall id c rest s,
    0 <= id <= 9007199254740992 ->
    digit_value 10 c = None ->
    (id = 0 -> c <> 120%N /\ c <> 88%N) ->
    parseInt (decimal id ++ c :: rest) = Some id
    /\ DELETE s (decimal id ++ c :: rest) = DELETE_with_id s id.
Proof.
  intros id c rest s [Hpos _] Hc Hx.
  assert (P : parseInt (decimal id ++ c :: rest) = Some id).
  { destruct id as [|p|p]; [| |lia].
    - destruct (Hx eq_refl) as [H1 H2].
      assert (J : c :: rest = [] \/
                (exists c0 rest0, c :: rest = c0 :: rest0 /\ digit_value 10 c0 = None
                   /\ (Decimal.D0 Decimal.Nil = Decimal.D0 Decimal.Nil ->
                       c0 <> 120%N /\ c0 <> 88%N)))
        by (right; exists c, rest; auto).
      assert (N0 : Decimal.D0 Decimal.Nil <> Decimal.Nil) by discriminate.
      exact (proj1 (parseInt_digits (Decimal.D0 Decimal.Nil) (c :: rest) N0 J)).
    - unfold decimal.
      assert (J : c :: rest = [] \/
                (exists c0 rest0, c :: rest = c0 :: rest0 /\ digit_value 10 c0 = None
                   /\ (Pos.to_uint p = Decimal.D0 Decimal.Nil ->
                       c0 <> 120%N /\ c0 <> 88%N))).
      { right. exists c, rest. split; [reflexivity|]. split; [exact Hc|].
        intros E. exfalso. exact (Unsigned.to_uint_nonzero p E). }
      rewrite (proj1 (parseInt_digits _ (c :: rest) (Unsigned.to_uint_nonnil p) J)).
      rewrite DecimalPos.Unsigned.of_to. reflexivity. }
  split; [exact P|]. unfold DELETE. rewrite P. reflexivity.
Qed.

Lemma skip_white_space_app ws s :
  Forall (fun c => is_white_space c = true) ws ->
  skip_white_space (ws ++ s) = skip_white_space s.
Proof.
  induction 1 as [|c ws Hc _ IH]; simpl; [reflexivity|].
  rewrite Hc. exact IH.
Qed.

(** X14. White space in front of the id in the path is skipped, so
    [/api/Product/%203] (a space, then 3) addresses the same product as
    [/api/Product/3], and a path that is refused stays refused with white
    space in front: [PUT] and [DELETE] answer the same and leave the same
    store. *)
Theorem leading_white_space_is_skipped :
  forall ws idParam s now request,
    Forall (fun c => is_white_space c = true) ws ->
    parseInt (ws ++ idParam) = parseInt idParam
    /\ DELETE s (ws ++ idParam) = DELETE s idParam
    /\ PUT s now (ws ++ idParam) request = PUT s now idParam request.
Proof.
  intros ws idParam s now request W.
  assert (P : parseInt (ws ++ idParam) = parseInt idParam).
  { unfold parseInt. rewrite (skip_white_space_app _ _ W). reflexivity. }
  split; [exact P|]. unfold DELETE, PUT. rewrite P. split; reflexivity.
Qed.

(** ** Every id is listed or was deleted *)

Lemma deleted_id_error st msg : deleted_id (error_response st msg) = [].
Proof. unfold deleted_id, error_response. simpl. destruct st as [|q|q]; auto;
  do 8 (destruct q as [q|q|]; auto). Qed.

Lemma deleted_id_Rejected request r :
  validate request = Normal (Rejected r) -> deleted_id r = [].
Proof.
  intros V. apply validate_Rejected in V as (_ & msg & E).
  destruct r as [st b]. simpl in E. subst b. unfold deleted_id.
  destruct st as [|q|q]; auto; do 8 (destruct q as [q|q|]; auto).
Qed.

Lemma created_id_Rejected request r :
  validate request = Normal (Rejected r) -> created_id r = [].
Proof.
  intros V. apply validate_Rejected in V as (E & _).
  apply created_id_not_201. lia.
Qed.

(** One request: the ids in the store and the id deleted, if any, are the
    ids that were in the store and the id created, if any. *)
Lemma handle_conserves s r s' resp :
  handle s r = (s', resp) ->
  Permutation (ids s' ++ deleted_id resp) (ids s ++ created_id resp).
Proof.
  intros H.
  assert (Same : forall resp0, deleted_id resp0 = [] -> created_id resp0 = [] ->
            Permutation (ids s ++ deleted_id resp0) (ids s ++ created_id resp0)).
  { intros resp0 -> ->. reflexivity. }
  destruct r as [|now1 now2 b|now idp b|idp]; simpl in H.
  - injection H as <- <-. apply Same; reflexivity.
  - apply POST_cases in H as [(-> & V)|[(-> & _ & ->)|(n & d & p & i & _ & -> & ->)]].
    + apply Same; [eapply deleted_id_Rejected|eapply created_id_Rejected]; eauto.
    + apply Same; reflexivity.
    + unfold ids. simpl. rewrite map_app, app_nil_r. reflexivity.
  - unfold PUT in H. destruct (parseInt idp) as [id|].
    + apply PUT_with_id_cases in H
        as [(-> & V)|[(-> & _ & ->)|[(-> & _ & _ & ->)
            |(n & d & p & i & k & old & _ & Hk & _ & _ & -> & ->)]]].
      * apply Same; [eapply deleted_id_Rejected|eapply created_id_Rejected]; eauto.
      * apply Same; reflexivity.
      * apply Same; reflexivity.
      * unfold ids. simpl. erewrite ids_insert_same; eauto.
    + injection H as <- <-. apply Same; reflexivity.
  - unfold DELETE in H. destruct (parseInt idp) as [id|].
    + apply DELETE_with_id_cases in H as [(-> & _ & ->)|(k & x & Hk & _ & _ & -> & ->)].
      * apply Same; reflexivity.
      * destruct (lookup_split _ _ _ Hk) as [E1 E2].
        unfold ids. simpl. rewrite E2, app_nil_r. rewrite E1 at 3.
        rewrite !map_app. simpl.
        rewrite <- app_assoc. apply Permutation_app_head.
        symmetry. apply Permutation_cons_append.
    + injection H as <- <-. apply Same; reflexivity.
Qed.

Lemma deleted_ids_cons r rest : deleted_ids (r :: rest) = deleted_id r ++ deleted_ids rest.
Proof. reflexivity. Qed.

Lemma serve_conserves rs : forall s s' resps,
  serve s rs = (s', resps) ->
  Permutation (ids s' ++ deleted_ids resps) (ids s ++ created_ids resps).
Proof.
  induction rs as [|r rs IH]; intros s s' resps H.
  - injection H as <- <-. reflexivity.
  - rewrite serve_cons in H.
    destruct (handle s r) as [s1 resp] eqn:Hr. simpl in H.
    destruct (serve s1 rs) as [s2 resps2] eqn:Hs. simpl in H.
    injection H as <- <-.
    pose proof (handle_conserves _ _ _ _ Hr) as P1.
    pose proof (IH _ _ _ Hs) as P2.
    rewrite deleted_ids_cons, created_ids_cons.
    apply Permutation_trans with ((ids s2 ++ deleted_ids resps2) ++ deleted_id resp).
    { rewrite <- app_assoc. apply Permutation_app_head. apply Permutation_app_comm. }
    apply Permutation_trans with ((ids s1 ++ created_ids resps2) ++ deleted_id resp).
    { apply Permutation_app_tail. exact P2. }
    apply Permutation_trans with ((ids s1 ++ deleted_id resp) ++ created_ids resps2).
    { rewrite <- !app_assoc. apply Permutation_app_head. apply Permutation_app_comm. }
    rewrite app_assoc. apply Permutation_app_tail. exact P1.
Qed.

(** X13. In every run from the initial store, each id from 1 up to the
    counter is accounted for exactly once: it is the id of a record in the
    store, or it is the id of a record a [DELETE] has sent back, and never
    both or twice. So no record disappears without a [DELETE] answering 200
    with it, no id is deleted twice, and the number of records is the number
    of ids handed out less the number of deletions. *)
Theorem every_id_is_listed_or_was_deleted :
  forall c1 c2 c3 c4 rs s resps,
    serve (initial_store c1 c2 c3 c4) rs = (s, resps) ->
    Permutation (ids s ++ deleted_ids resps) (seqZ 1 (nextId s - 1))
    /\ List.NoDup (ids s ++ deleted_ids resps)
    /\ (length (globalProducts s) + length (deleted_ids resps))%nat
       = Z.to_nat (nextId s - 1).
Proof.
  intros c1 c2 c3 c4 rs s resps H.
  pose proof (initial_store_inv c1 c2 c3 c4) as Inv0.
  destruct (serve_inv _ _ _ _ Inv0 H) as (_ & Cnt & _).
  pose proof (serve_created_consecutive _ _ _ _ Inv0 H) as C.
  pose proof (serve_conserves _ _ _ _ H) as P.
  change (nextId (initial_store c1 c2 c3 c4)) with 3 in C, Cnt.
  change (ids (initial_store c1 c2 c3 c4)) with [1; 2] in P.
  rewrite C in P.
  assert (E : seqZ 1 (nextId s - 1) = [1; 2] ++ seqZ 3 (nextId s - 3)).
  { rewrite (seqZ_cons 1) by lia. rewrite (seqZ_cons (Z.succ 1)) by lia.
    simpl. do 2 f_equal. f_equal; lia. }
  rewrite E.
  split; [exact P|]. split.
  - apply (Permutation_NoDup (l := [1; 2] ++ seqZ 3 (nextId s - 3))).
    + symmetry. exact P.
    + rewrite <- E. apply NoDup_ListNoDup, NoDup_seqZ.
  - apply Permutation_length in P.
    rewrite !length_app in P. unfold ids in P. rewrite length_map in P.
    rewrite P, length_seqZ. simpl. lia.
Qed.

End Handlers.

(** * The theorems at sample requests

    None of the sample requests reaches the conversion of strings to
    numbers: the runs below are the same whatever it answers. *)

Lemma ids_distinct_increasing_never_reused_witness :
  exists conv s resps,
    serve conv (initial_store 0 0 0 0) sample_run = (s, resps)
    /\ created_ids resps = [3; 4]
    /\ List.NoDup (ids s)
    /\ StronglySorted Z.lt (1 :: 2 :: created_ids resps).
Proof.
  exists (fun _ => Normal PrimFloat.nan). eexists. eexists.
  split; [reflexivity|]. split; [reflexivity|].
  pose proof (ids_distinct_increasing_never_reused (fun _ => Normal PrimFloat.nan)
                0 0 0 0 sample_run _ _ eq_refl) as (ND & _ & Srt & _).
  split; [exact ND | exact Srt].
Defined.

(** The second request resumed first: it gets 3, the first gets 4. *)
Lemma requests_in_flight_run_as_if_serial_witness :
  exists conv s' r1 r2 p1 p2,
    run_schedule [1%nat; 0%nat]
      (initial_store 0 0 0 0,
       [POST_task conv 1 1 (Some body_A_B_10); POST_task conv 2 2 (Some body_A_B_10)])
    = Some (s', [Done r1; Done r2])
    /\ r1 = {| status := 201; body := JsonProduct p1 |}
    /\ r2 = {| status := 201; body := JsonProduct p2 |}
    /\ Product.id p1 = 4 /\ Product.id p2 = 3.
Proof.
  exists (fun _ => Normal PrimFloat.nan). eexists. eexists. eexists.
  assert (V : valid_body (fun _ => Normal PrimFloat.nan) (Some body_A_B_10)).
  { exists (JString (lit "A")), (JString (lit "B")), (JNumber 10%float), JUndefined.
    reflexivity. }
  destruct (proj2 (requests_in_flight_run_as_if_serial (fun _ => Normal PrimFloat.nan))
              (initial_store 0 0 0 0) 1 1 2 2 (Some body_A_B_10) (Some body_A_B_10)
              [1%nat; 0%nat] _ _ _ V V eq_refl) as (p1 & p2 & E1 & E2 & _).
  exists p1, p2. split; [reflexivity|]. split; [exact E1|]. split; [exact E2|].
  injection E1 as <-. injection E2 as <-. split; reflexivity.
Defined.

Lemma first_create_returns_3_second_4_witness :
  exists conv s1 s2 p2,
    POST conv (initial_store 0 0 0 0) 7 7 (Some body_A_B_10)
    = (s1, {| status := 201;
              body := JsonProduct
                (Product.mk 3 (JString (lit "A")) (JString (lit "B"))
                   (JNumber 10%float) JUndefined 7 7) |})
    /\ POST conv s1 8 9 (Some body_A_B_10)
       = (s2, {| status := 201; body := JsonProduct p2 |})
    /\ Product.id p2 = 4.
Proof.
  exists (fun _ => Normal PrimFloat.nan).
  apply (first_create_returns_3_second_4 (fun _ => Normal PrimFloat.nan)
           0 0 0 0 [] _ [] 7 7 8 9 (Some body_A_B_10)).
  - reflexivity.
  - reflexivity.
  - exists (JString (lit "A")), (JString (lit "B")), (JNumber 10%float), JUndefined.
    reflexivity.
Defined.

(** The store emptied by deleting both seeds: Create returns id 3, not 1,
    and with the clock ticking between its two readings [createdAt] and
    [updatedAt] differ, whatever the conversion. *)
Lemma create_on_emptied_store_returns_3 :
  exists s1 r1 s_empty r2 s3,
    DELETE (initial_store 0 0 0 0) (lit "1") = (s1, r1)
    /\ DELETE s1 (lit "2") = (s_empty, r2)
    /\ globalProducts s_empty = []
    /\ (fun conv => POST conv s_empty 5 6 (Some body_A_B_10))
       = (fun _ => (s3, {| status := 201;
                          body := JsonProduct
                            (Product.mk 3 (JString (lit "A")) (JString (lit "B"))
                               (JNumber 10%float) JUndefined 5 6) |})).
Proof.
  eexists. eexists. eexists. eexists. eexists.
  split; [reflexivity|]. split; [reflexivity|]. split; reflexivity.
Qed.

Lemma update_unknown_id_witness :
  exists conv,
    ~ In 99 (ids (initial_store 0 0 0 0))
    /\ PUT conv (initial_store 0 0 0 0) 5 (lit "99") (Some body_A_B_10)
       = (initial_store 0 0 0 0, not_found).
Proof.
  exists (fun _ => Normal PrimFloat.nan).
  assert (Hin : ~ In 99 (ids (initial_store 0 0 0 0))).
  { simpl. intros [H|[H|[]]]; discriminate. }
  split; [exact Hin|].
  apply (proj1 (update_unknown_id (fun _ => Normal PrimFloat.nan) (initial_store 0 0 0 0) 5
                  (lit "99") 99 (Some body_A_B_10) eq_refl Hin)).
  exists (JString (lit "A")), (JString (lit "B")), (JNumber 10%float), JUndefined.
  reflexivity.
Defined.

(** An unknown id with an empty object as body: 400, not 404, whatever the
    conversion. *)
Lemma update_unknown_id_invalid_body_is_400 :
  ids (initial_store 0 0 0 0) = [1; 2]
  /\ parseInt (lit "99") = Some 99
  /\ (fun conv => PUT conv (initial_store 0 0 0 0) 5 (lit "99") (Some (JObject [])))
     = (fun _ => (initial_store 0 0 0 0,
                  error_response 400 "Name, description, and price are required")).
Proof. split; [reflexivity|]. split; reflexivity. Qed.

Lemma length_limits_100_and_500_witness :
  exists conv,
    POST conv (initial_store 0 0 0 0) 1 1
         (Some (product_body (JString (repeat 97%N 100)) (JString (repeat 98%N 500))
                  (JNumber 10%float) JNull))
    = ({| globalProducts :=
            globalProducts (initial_store 0 0 0 0) ++
            [Product.mk 3 (JString (repeat 97%N 100)) (JString (repeat 98%N 500))
               (JNumber 10%float) JUndefined 1 1];
          nextProductId := 4;
          nextId := 4 |},
       {| status := 201;
          body := JsonProduct
            (Product.mk 3 (JString (repeat 97%N 100)) (JString (repeat 98%N 500))
               (JNumber 10%float) JUndefined 1 1) |})
    /\ (In 2 (ids (initial_store 0 0 0 0)) ->
        exists k old,
          globalProducts (initial_store 0 0 0 0) !! k = Some old /\ Product.id old = 2
          /\ PUT conv (initial_store 0 0 0 0) 9 (lit "2")
               (Some (product_body (JString (repeat 97%N 100)) (JString (repeat 98%N 500))
                        (JNumber 10%float) JNull))
             = ({| globalProducts :=
                     <[k := Product.mk (Product.id old) (JString (repeat 97%N 100))
                              (JString (repeat 98%N 500)) (JNumber 10%float) JUndefined
                              (Product.createdAt old) 9]>
                       (globalProducts (initial_store 0 0 0 0));
                   nextProductId := 3;
                   nextId := 3 |},
                {| status := 200;
                   body := JsonProduct
                     (Product.mk (Product.id old) (JString (repeat 97%N 100))
                        (JString (repeat 98%N 500)) (JNumber 10%float) JUndefined
                        (Product.createdAt old) 9) |})).
Proof.
  exists (fun _ => Normal PrimFloat.nan).
  exact (proj1 (length_limits_100_and_500 (fun _ => Normal PrimFloat.nan)
            (initial_store 0 0 0 0) 1 1 9 (lit "2") 2
            (product_body (JString (repeat 97%N 100)) (JString (repeat 98%N 500))
               (JNumber 10%float) JNull)
            (repeat 97%N 100) (repeat 98%N 500) (JNumber 10%float) JNull
            eq_refl eq_refl eq_refl eq_refl eq_refl eq_refl) eq_refl eq_refl).
Defined.

Lemma validation_error_leaves_store_witness :
  exists conv s' r,
    POST conv (initial_store 0 0 0 0) 1 2
         (Some (product_body (JString (lit "A")) (JString (lit "B"))
                  (JNumber (-1)%float) JNull))
    = (s', r)
    /\ r = error_response 400 "Price must be a positive number"
    /\ s' = initial_store 0 0 0 0.
Proof.
  exists (fun _ => Normal PrimFloat.nan). eexists. eexists.
  split; [reflexivity|]. split; [reflexivity|].
  apply (validation_error_leaves_store (fun _ => Normal PrimFloat.nan)
           (initial_store 0 0 0 0) 1 2 0 []
           (Some (product_body (JString (lit "A")) (JString (lit "B"))
                    (JNumber (-1)%float) JNull))
           _ (error_response 400 "Price must be a positive number")).
  - left. reflexivity.
  - reflexivity.
Defined.

Lemma update_changes_one_record_witness :
  exists conv s' r k old new,
    PUT conv (initial_store 1 1 1 1) 5 (lit "2") (Some body_A_B_10) = (s', r)
    /\ status r = 200
    /\ globalProducts (initial_store 1 1 1 1) !! k = Some old
    /\ globalProducts s' !! k = Some new
    /\ Product.id new = Product.id old
    /\ Product.createdAt new = Product.createdAt old
    /\ Product.updatedAt new = 5
    /\ length (globalProducts s') = 2%nat.
Proof.
  exists (fun _ => Normal PrimFloat.nan). eexists. eexists.
  destruct (update_changes_one_record (fun _ => Normal PrimFloat.nan) (initial_store 1 1 1 1) 5
              (lit "2") (Some body_A_B_10) _ _ eq_refl eq_refl)
    as (id & k & old & new & n & d & p & i & _ & _ & Hk & _ & -> & _ & Hk' & _ & Hl & _).
  exists k, old, (Product.mk (Product.id old) n d p (image_or_undefined i)
                   (Product.createdAt old) 5).
  split; [reflexivity|]. split; [reflexivity|].
  split; [exact Hk|]. split; [exact Hk'|].
  split; [reflexivity|]. split; [reflexivity|]. split; [reflexivity|exact Hl].
Defined.

(** The clock set back by a second between initialisation and update:
    [updatedAt] of product 1 decreases, whatever the conversion. *)
Lemma update_with_earlier_clock_lowers_updatedAt :
  exists s' p,
    (fun conv =>
       PUT conv (initial_store 1700000001000 1700000001000 1700000001000 1700000001000)
         1700000000000 (lit "1") (Some body_A_B_10))
    = (fun _ => (s', {| status := 200; body := JsonProduct p |}))
    /\ option_map Product.updatedAt
         (globalProducts
            (initial_store 1700000001000 1700000001000 1700000001000 1700000001000)
          !! 0%nat)
       = Some 1700000001000
    /\ option_map Product.updatedAt (globalProducts s' !! 0%nat) = Some 1700000000000
    /\ Product.updatedAt p = 1700000000000.
Proof.
  eexists. eexists. split; [reflexivity|]. split; [reflexivity|]. split; reflexivity.
Qed.

Lemma delete_removes_record_for_good_witness :
  exists conv s s',
    serve conv (initial_store 0 0 0 0) [ReqPOST 1 1 (Some body_A_B_10)]
    = (s, [ {| status := 201;
               body := JsonProduct (Product.mk 3 (JString (lit "A")) (JString (lit "B"))
                                      (JNumber 10%float) JUndefined 1 1) |} ])
    /\ DELETE s (lit "3")
       = (s', {| status := 200;
                 body := JsonDeleted "Product deleted successfully"
                           (Product.mk 3 (JString (lit "A")) (JString (lit "B"))
                              (JNumber 10%float) JUndefined 1 1) |})
    /\ ids s' = [1; 2]
    /\ DELETE s' (lit "3") = (s', not_found).
Proof.
  exists (fun _ => Normal PrimFloat.nan). eexists. eexists.
  split; [reflexivity|]. split; [reflexivity|]. split; [reflexivity|].
  destruct (delete_removes_record_for_good (fun _ => Normal PrimFloat.nan) 0 0 0 0
              [ReqPOST 1 1 (Some body_A_B_10)] _ _ (lit "3") _ _ eq_refl eq_refl eq_refl)
    as (p & l1 & l2 & _ & _ & _ & _ & _ & _ & _ & Later).
  exact (proj2 (Later [] _ [] eq_refl)).
Defined.

(** C9. The guard means to refuse an id that is not an integer and misses
    one that only starts with digits: ["1abc"] is not an integer, yet on the
    store as initialised [DELETE /api/Product/1abc] answers 200 and deletes
    product 1, where the claim has 400 "Invalid product ID" and the store
    untouched. *)
Lemma delete_1abc_deletes_product_1 :
  exists s' p,
    DELETE (initial_store 0 0 0 0) (lit "1abc")
    = (s', {| status := 200;
              body := JsonDeleted "Product deleted successfully" p |})
    /\ Product.id p = 1
    /\ ids s' = [2].
Proof. eexists. eexists. split; [reflexivity|]. split; reflexivity. Qed.



(** ** Instances of the further properties *)

Lemma created_ids_are_consecutive_witness :
  exists conv s resps,
    serve conv (initial_store 0 0 0 0) sample_run = (s, resps)
    /\ created_ids resps = seqZ 3 (nextId s - 3)
    /\ nextId s = 3 + Z.of_nat (length (created_ids resps))
    /\ nextProductId s = nextId s.
Proof.
  exists (fun _ => Normal PrimFloat.nan). eexists. eexists.
  split; [reflexivity|].
  apply (created_ids_are_consecutive (fun _ => Normal PrimFloat.nan)
           0 0 0 0 sample_run).
  reflexivity.
Defined.

Lemma list_is_in_id_order_witness :
  exists conv s resps,
    serve conv (initial_store 0 0 0 0) sample_run = (s, resps)
    /\ GET s = (s, {| status := 200; body := JsonProducts (globalProducts s) |})
    /\ StronglySorted Z.lt (map Product.id (globalProducts s))
    /\ (forall i, In i (map Product.id (globalProducts s)) -> 1 <= i < nextId s).
Proof.
  exists (fun _ => Normal PrimFloat.nan). eexists. eexists.
  split; [reflexivity|].
  exact (list_is_in_id_order (fun _ => Normal PrimFloat.nan) 0 0 0 0 sample_run
           _ _ eq_refl).
Defined.

Lemma stored_products_pass_validation_witness :
  exists conv s resps p,
    serve conv (initial_store 0 0 0 0) sample_run = (s, resps)
    /\ In p (globalProducts s)
    /\ Product.id p = 4
    /\ passes_validation conv p.
Proof.
  exists (fun _ => Normal PrimFloat.nan). eexists. eexists. eexists.
  split; [reflexivity|].
  assert (I : In (Product.mk 4 (JString (lit "A")) (JString (lit "B")) (JNumber 10%float)
                    JUndefined 20 21)
                 (globalProducts
                    (fst (serve (fun _ => Normal PrimFloat.nan)
                            (initial_store 0 0 0 0) sample_run)))).
  { right. right. left. reflexivity. }
  split; [exact I|]. split; [reflexivity|].
  apply (stored_products_pass_validation (fun _ => Normal PrimFloat.nan)
           0 0 0 0 sample_run _ _ _ eq_refl I).
Defined.

Lemma refused_requests_leave_the_store_witness :
  exists conv s' resp,
    handle conv (initial_store 0 0 0 0) (ReqDELETE (lit "9")) = (s', resp)
    /\ 400 <= status resp < 500
    /\ s' = initial_store 0 0 0 0
    /\ exists msg, body resp = JsonError msg.
Proof.
  exists (fun _ => Normal PrimFloat.nan). eexists. eexists.
  split; [reflexivity|].
  assert (St : 400 <= status not_found < 500) by (simpl; lia).
  split; [exact St|].
  apply (refused_requests_leave_the_store (fun _ => Normal PrimFloat.nan)
           (initial_store 0 0 0 0) (ReqDELETE (lit "9")) _ _ eq_refl St).
Defined.

Lemma create_then_delete_restores_list_witness :
  exists conv s1 p s2,
    POST conv (initial_store 0 0 0 0) 1 2 (Some body_A_B_10)
    = (s1, {| status := 201; body := JsonProduct p |})
    /\ DELETE s1 (lit "3")
       = (s2, {| status := 200; body := JsonDeleted "Product deleted successfully" p |})
    /\ globalProducts s2 = globalProducts (initial_store 0 0 0 0)
    /\ nextId s2 = nextId (initial_store 0 0 0 0) + 1
    /\ nextProductId s2 = nextId (initial_store 0 0 0 0) + 1.
Proof.
  exists (fun _ => Normal PrimFloat.nan). eexists. eexists.
  destruct (create_then_delete_restores_list (fun _ => Normal PrimFloat.nan)
              0 0 0 0 [] _ _ 1 2 (Some body_A_B_10) _ _ (lit "3")
              eq_refl eq_refl eq_refl) as (s2 & D & G & N1 & N2).
  exists s2. split; [reflexivity|]. split; [exact D|].
  split; [exact G|]. split; [exact N1|exact N2].
Defined.

Lemma update_overwrites_previous_update_witness :
  exists conv,
    valid_body conv (Some body_A_B_10)
    /\ PUT conv
         (fst (PUT conv (initial_store 0 0 0 0) 5 (lit "1")
                 (Some (product_body (JString (lit "C")) (JString (lit "D"))
                          (JNumber 2%float) (JString (lit "i"))))))
         6 (lit "1") (Some body_A_B_10)
       = PUT conv (initial_store 0 0 0 0) 6 (lit "1") (Some body_A_B_10).
Proof.
  exists (fun _ => Normal PrimFloat.nan).
  assert (V : valid_body (fun _ => Normal PrimFloat.nan) (Some body_A_B_10)).
  { exists (JString (lit "A")), (JString (lit "B")), (JNumber 10%float), JUndefined.
    reflexivity. }
  split; [exact V|].
  apply (update_overwrites_previous_update (fun _ => Normal PrimFloat.nan)
           (initial_store 0 0 0 0) 5 6 (lit "1")
           (Some (product_body (JString (lit "C")) (JString (lit "D"))
                    (JNumber 2%float) (JString (lit "i"))))
           (Some body_A_B_10) V).
Defined.

Lemma updates_of_different_ids_commute_witness :
  exists conv,
    parseInt (lit "1") = Some 1 /\ parseInt (lit "2") = Some 2 /\ 1 <> 2
    /\ fst (PUT conv (fst (PUT conv (initial_store 0 0 0 0) 5 (lit "1") (Some body_A_B_10)))
              6 (lit "2") (Some body_A_B_10))
       = fst (PUT conv (fst (PUT conv (initial_store 0 0 0 0) 6 (lit "2") (Some body_A_B_10)))
                5 (lit "1") (Some body_A_B_10)).
Proof.
  exists (fun _ => Normal PrimFloat.nan).
  split; [reflexivity|]. split; [reflexivity|].
  assert (N : 1 <> 2) by lia.
  split; [exact N|].
  apply (updates_of_different_ids_commute (fun _ => Normal PrimFloat.nan)
           (initial_store 0 0 0 0) 5 6 (lit "1") (lit "2") 1 2
           (Some body_A_B_10) (Some body_A_B_10) eq_refl eq_refl N).
Defined.

Lemma validation_reports_first_failure_witness :
  exists conv,
    POST conv (initial_store 0 0 0 0) 1 2
      (Some (product_body (JString (lit "A")) JNull (JNumber (-1)%float) JNull))
    = (initial_store 0 0 0 0,
       error_response 400 "Name, description, and price are required")
    /\ PUT conv (initial_store 0 0 0 0) 3 (lit "1")
         (Some (product_body (JString (lit "A")) JNull (JNumber (-1)%float) JNull))
       = (initial_store 0 0 0 0,
          error_response 400 "Name, description, and price are required").
Proof.
  exists (fun _ => Normal PrimFloat.nan).
  apply (proj1 (validation_reports_first_failure (fun _ => Normal PrimFloat.nan)
                  (initial_store 0 0 0 0) 1 2 3 (lit "1") 1
                  (product_body (JString (lit "A")) JNull (JNumber (-1)%float) JNull)
                  (JString (lit "A")) JNull (JNumber (-1)%float) JNull
                  eq_refl eq_refl eq_refl eq_refl eq_refl)).
  reflexivity.
Defined.

Lemma bodies_that_are_not_objects_witness :
  exists conv,
    parseInt (lit "1") = Some 1
    /\ POST conv (initial_store 0 0 0 0) 1 2 (Some JNull)
       = (initial_store 0 0 0 0, error_response 500 "Failed to create product")
    /\ PUT conv (initial_store 0 0 0 0) 3 (lit "1") (Some JNull)
       = (initial_store 0 0 0 0, error_response 500 "Failed to update product").
Proof.
  exists (fun _ => Normal PrimFloat.nan).
  split; [reflexivity|].
  apply (proj1 (bodies_that_are_not_objects (fun _ => Normal PrimFloat.nan)
                  (initial_store 0 0 0 0) 1 2 3 (lit "1") 1 (Some JNull) eq_refl)).
  right. reflexivity.
Defined.

Lemma creates_in_flight_get_consecutive_ids_witness :
  exists conv s' pool',
    run_schedule [2%nat; 0%nat; 1%nat]
      (initial_store 0 0 0 0,
       map (task_of conv)
         [ReqPOST 1 1 (Some body_A_B_10); ReqPOST 2 2 (Some body_A_B_10);
          ReqPOST 3 3 (Some body_A_B_10)])
    = Some (s', pool')
    /\ Forall returned pool'
    /\ nextId s' = nextId (initial_store 0 0 0 0) + Z.of_nat 3.
Proof.
  exists (fun _ => Normal PrimFloat.nan). eexists. eexists.
  split; [reflexivity|].
  assert (V : valid_create (fun _ => Normal PrimFloat.nan) (ReqPOST 1 1 (Some body_A_B_10))
              /\ valid_create (fun _ => Normal PrimFloat.nan) (ReqPOST 2 2 (Some body_A_B_10))
              /\ valid_create (fun _ => Normal PrimFloat.nan) (ReqPOST 3 3 (Some body_A_B_10))).
  { split; [|split]; eexists; eexists; eexists; (split; [reflexivity|]);
      exists (JString (lit "A")), (JString (lit "B")), (JNumber 10%float), JUndefined;
      reflexivity. }
  destruct V as (V1 & V2 & V3).
  assert (F : Forall (valid_create (fun _ => Normal PrimFloat.nan))
                [ReqPOST 1 1 (Some body_A_B_10); ReqPOST 2 2 (Some body_A_B_10);
                 ReqPOST 3 3 (Some body_A_B_10)]).
  { constructor; [exact V1|]. constructor; [exact V2|]. constructor; [exact V3|].
    constructor. }
  assert (R : Forall returned
                [Done {| status := 201;
                         body := JsonProduct
                                   (Product.mk 4 (JString (lit "A")) (JString (lit "B"))
                                      (JNumber 10%float) JUndefined 1 1) |};
                 Done {| status := 201;
                         body := JsonProduct
                                   (Product.mk 5 (JString (lit "A")) (JString (lit "B"))
                                      (JNumber 10%float) JUndefined 2 2) |};
                 Done {| status := 201;
                         body := JsonProduct
                                   (Product.mk 3 (JString (lit "A")) (JString (lit "B"))
                                      (JNumber 10%float) JUndefined 3 3) |}]).
  { repeat constructor; eexists; reflexivity. }
  split; [exact R|].
  apply (proj1 (creates_in_flight_get_consecutive_ids (fun _ => Normal PrimFloat.nan)
                  (initial_store 0 0 0 0)
                  [ReqPOST 1 1 (Some body_A_B_10); ReqPOST 2 2 (Some body_A_B_10);
                   ReqPOST 3 3 (Some body_A_B_10)]
                  [2%nat; 0%nat; 1%nat] _ _
                  F eq_refl R)).
Defined.

Lemma parseInt_reads_back_decimal_witness :
  exists conv,
    - 9007199254740992 <= 2 <= 9007199254740992
    /\ parseInt (decimal 2) = Some 2
    /\ DELETE (initial_store 0 0 0 0) (decimal 2) = DELETE_with_id (initial_store 0 0 0 0) 2
    /\ PUT conv (initial_store 0 0 0 0) 5 (decimal 2) (Some body_A_B_10)
       = PUT_with_id conv (initial_store 0 0 0 0) 5 2 (Some body_A_B_10).
Proof.
  exists (fun _ => Normal PrimFloat.nan).
  assert (B : - 9007199254740992 <= 2 <= 9007199254740992) by lia.
  split; [exact B|].
  apply (parseInt_reads_back_decimal (fun _ => Normal PrimFloat.nan)
           2 (initial_store 0 0 0 0) 5 (Some body_A_B_10) B).
Defined.

Lemma parseInt_ignores_what_follows_the_digits_witness :
  0 <= 7 <= 9007199254740992
  /\ digit_value 10 97%N = None
  /\ parseInt (decimal 7 ++ 97%N :: lit "bc") = Some 7
  /\ DELETE (initial_store 0 0 0 0) (decimal 7 ++ 97%N :: lit "bc")
     = DELETE_with_id (initial_store 0 0 0 0) 7.
Proof.
  assert (P : 0 <= 7 <= 9007199254740992) by lia.
  split; [exact P|]. split; [reflexivity|].
  apply (parseInt_ignores_what_follows_the_digits 7 97%N (lit "bc")
           (initial_store 0 0 0 0) P eq_refl).
  intros E. discriminate E.
Defined.

Lemma every_id_is_listed_or_was_deleted_witness :
  exists conv s resps,
    serve conv (initial_store 0 0 0 0) sample_run = (s, resps)
    /\ Permutation (ids s ++ deleted_ids resps) (seqZ 1 (nextId s - 1))
    /\ List.NoDup (ids s ++ deleted_ids resps)
    /\ (length (globalProducts s) + length (deleted_ids resps))%nat
       = Z.to_nat (nextId s - 1).
Proof.
  exists (fun _ => Normal PrimFloat.nan). eexists. eexists.
  split; [reflexivity|].
  apply (every_id_is_listed_or_was_deleted (fun _ => Normal PrimFloat.nan)
           0 0 0 0 sample_run).
  reflexivity.
Defined.

Lemma leading_white_space_is_skipped_witness :
  exists conv,
    Forall (fun c => is_white_space c = true) [32%N; 9%N]
    /\ parseInt ([32%N; 9%N] ++ lit "1") = parseInt (lit "1")
    /\ DELETE (initial_store 0 0 0 0) ([32%N; 9%N] ++ lit "1")
       = DELETE (initial_store 0 0 0 0) (lit "1")
    /\ PUT conv (initial_store 0 0 0 0) 5 ([32%N; 9%N] ++ lit "1") (Some body_A_B_10)
       = PUT conv (initial_store 0 0 0 0) 5 (lit "1") (Some body_A_B_10).
Proof.
  exists (fun _ => Normal PrimFloat.nan).
  assert (W : Forall (fun c => is_white_space c = true) [32%N; 9%N]).
  { constructor; [reflexivity|]. constructor; [reflexivity|]. constructor. }
  split; [exact W|].
  apply (leading_white_space_is_skipped (fun _ => Normal PrimFloat.nan)
           [32%N; 9%N] (lit "1") (initial_store 0 0 0 0) 5 (Some body_A_B_10) W).
Defined.
